(** * raygun4reactnative: session and event-transmission engine

    A shallow embedding of
    - [sdk/src/RealUserMonitor.ts]  (module [RealUserMonitor]),
    - the earlier RealUserMonitor variant (module [LegacyMonitor]),
    - the session and crash-payload part of [src/RaygunClient.ts]
      (module [RaygunClient]).

    JavaScript objects become records, [Map]s become [gmap]s, mutation
    becomes explicit state passing over a [World] that also records the
    observable effects (HTTP POSTs, log lines, native-bridge calls).
    [Date.now()], the id generators and the network are oracles of the
    host, indexed by the number of calls made so far. *)

From Stdlib Require Import ZArith QArith Qround String List Lia.
From stdpp Require Import gmap strings list pretty.

Open Scope Z_scope.

(** ** JavaScript values shared by the three modules *)

Module Js.

(** A JavaScript [number]: an exact rational (IEEE rounding is not
    modelled), the two infinities, or NaN.  [-0] is not distinguished
    from [0]. *)
Inductive number :=
| Num (q : Q)
| PosInf
| NegInf
| NaN.

Definition of_Z (z : Z) : number := Num (inject_Z z).

(** [a - b] *)
Definition sub (a b : number) : number :=
  match a, b with
  | NaN, _ | _, NaN => NaN
  | Num x, Num y => Num (x - y)
  | Num _, PosInf => NegInf
  | Num _, NegInf => PosInf
  | PosInf, PosInf => NaN
  | PosInf, _ => PosInf
  | NegInf, NegInf => NaN
  | NegInf, _ => NegInf
  end.

(** [a - b] where [b] may be [undefined]: [ToNumber(undefined)] is NaN. *)
Definition sub_opt (a : number) (b : option number) : number :=
  match b with
  | Some y => sub a y
  | None => NaN
  end.

(** [Math.round]: nearest integer, ties towards +infinity. *)
Definition Math_round (a : number) : number :=
  match a with
  | Num x => Num (inject_Z (Qfloor (x + (1 # 2))))
  | other => other
  end.

(** [!!a] for a number: [0] and [NaN] are falsy. *)
Definition truthy (a : number) : bool :=
  match a with
  | Num x => negb (Qeq_bool x 0)
  | NaN => false
  | PosInf | NegInf => true
  end.

(** [!!a] for a possibly [undefined] number. *)
Definition truthy_opt (a : option number) : bool :=
  match a with
  | Some x => truthy x
  | None => false
  end.

(** [s || ''] for a possibly [undefined] string. *)
Definition or_empty (s : option string) : string :=
  match s with
  | Some x => x
  | None => ""
  end.

(** [s.replace(pat, "")] with a string pattern: only the first
    occurrence is removed. *)
Definition remove_first (pat s : string) : string :=
  match String.index 0 pat s with
  | Some i =>
      String.substring 0 i s ++
      String.substring (i + String.length pat)
                       (String.length s - (i + String.length pat)) s
  | None => s
  end.

(** [s.split(sep)[0]]: the part of [s] before the first [sep]. *)
Definition before_first (sep s : string) : string :=
  match String.index 0 sep s with
  | Some i => String.substring 0 i s
  | None => s
  end.

(** How a call completes.  An [async] function that throws returns a
    rejected promise; [StackOverflow] is the [RangeError] raised when
    the nesting of calls exceeds the depth the engine allows. *)
Inductive Completion :=
| Normal
| TypeError
| StackOverflow.

End Js.

Import Js.

(** Identity record of the client session ([User] of [Types]). *)
Record User := mkUser {
  identifier : string;
  isAnonymous : option bool;
  email : option string;
  firstName : option string;
  fullName : option string;
  uuid : option string
}.

(** ** sdk/src/RealUserMonitor.ts *)

Module RealUserMonitor.

(** [RealUserMonitoringEvents] of [Types]. *)
Inductive RealUserMonitoringEvents :=
| SessionStart
| SessionEnd
| EventTiming.

(** [RealUserMonitoringTimings] of [Types].  The enum declaration is
    not among the files embedded here: [OtherTiming] stands for any
    value other than the two members the class compares against. *)
Inductive RealUserMonitoringTimings :=
| ViewLoaded
| NetworkCall
| OtherTiming (tag : string).

(** [RequestMeta] of [Types]: [sendTime] is optional. *)
Record RequestMeta := mkMeta {
  name : string;
  sendTime : option number
}.

(** The [data] argument of a transmission: [{}] or
    [{ name, timing: { type, duration } }].  The payload carries
    [JSON.stringify([data])]; it is kept structured here. *)
Inductive RumData :=
| NoData
| Timing (name : string) (type : RealUserMonitoringTimings) (duration : number).

(** [RealUserMonitorPayload].  [timestamp] is the instant handed to
    [toISOString], in epoch milliseconds. *)
Record RealUserMonitorPayload := mkPayload {
  type : RealUserMonitoringEvents;
  timestamp : number;
  tags : list string;
  user : User;
  sessionId : string;
  p_version : string;
  os : string;
  p_osVersion : string;
  p_platform : string;
  data : RumData
}.

(** One [fetch] call: [POST endpoint?apiKey=...] with body
    [{ eventData: [rumMessage] }]. *)
Record Post := mkPost {
  post_endpoint : string;
  post_apiKey : string;
  eventData : RealUserMonitorPayload
}.

(** One constructor per [RaygunLogger] call site. *)
Inductive LogEntry :=
| D_ViewStartedLoading (viewname : string)
| D_ViewFinishedLoading (viewname : string)
| D_UndefinedStartTime (viewname : string)
| D_Transmitting (endpoint apiKey : string) (msg : RealUserMonitorPayload)
| E_UnableToSend.

(** The call context handed over by the XHR interceptor; [_id_] is
    [undefined] until [handleRequestOpen] sets it. *)
Record Xhr := mkXhr { _id_ : option string }.

(** What the class imports from modules that are not among the files
    embedded here, and the host's clock and network. *)
Record Host := mkHost {
  (** the [n]-th reading of [Date.now()] *)
  Date_now : nat -> Z;
  (** [getRandomGUID(length)], at its [n]-th call *)
  getRandomGUID : nat -> nat -> string;
  (** [getDeviceId()], at its [n]-th call *)
  getDeviceId : nat -> string;
  shouldIgnoreURL : string -> list string -> bool;
  shouldIgnoreView : string -> list string -> bool;
  Platform_OS : string;
  osVersion : string;
  platform : string;
  (** whether the [n]-th [fetch] resolves *)
  fetch_resolves : nat -> bool
}.

(** The fields of a [RealUserMonitor] instance. *)
Record Monitor := mkMonitor {
  apiKey : string;
  version : string;
  disableNetworkMonitoring : bool;
  ignoredURLs : list string;
  ignoredViews : list string;
  requests : gmap string RequestMeta;
  raygunRumEndpoint : string;
  loadingViews : gmap string number;
  lastSessionInteractionTime : Z;
  RealUserMonitoringSessionId : string
}.

(** The instance together with the effects it has had so far. *)
Record World := mkWorld {
  this : Monitor;
  clockReads : nat;
  guidCalls : nat;
  idCalls : nat;
  (** [fetch] calls, oldest first *)
  posts : list Post;
  (** log lines, oldest first *)
  logs : list LogEntry;
  (** what [getCurrentUser()] and [getCurrentTags()] return *)
  currentUser : User;
  currentTags : list string
}.

Definition defaultURLIgnoreList : list string :=
  ["api.raygun.com"; "localhost:8081"]%string.
Definition defaultViewIgnoreList : list string := [].
Definition SessionRotateThreshold : Z := 30 * 60 * 1000.

(** *** Field updates *)

Definition with_this (f : Monitor -> Monitor) (w : World) : World :=
  mkWorld (f (this w)) (clockReads w) (guidCalls w) (idCalls w)
          (posts w) (logs w) (currentUser w) (currentTags w).

Definition set_requests (r : gmap string RequestMeta) (m : Monitor) : Monitor :=
  mkMonitor (apiKey m) (version m) (disableNetworkMonitoring m)
            (ignoredURLs m) (ignoredViews m) r (raygunRumEndpoint m)
            (loadingViews m) (lastSessionInteractionTime m)
            (RealUserMonitoringSessionId m).

Definition set_loadingViews (l : gmap string number) (m : Monitor) : Monitor :=
  mkMonitor (apiKey m) (version m) (disableNetworkMonitoring m)
            (ignoredURLs m) (ignoredViews m) (requests m)
            (raygunRumEndpoint m) l (lastSessionInteractionTime m)
            (RealUserMonitoringSessionId m).

Definition set_lastSessionInteractionTime (t : Z) (m : Monitor) : Monitor :=
  mkMonitor (apiKey m) (version m) (disableNetworkMonitoring m)
            (ignoredURLs m) (ignoredViews m) (requests m)
            (raygunRumEndpoint m) (loadingViews m) t
            (RealUserMonitoringSessionId m).

Definition set_RealUserMonitoringSessionId (s : string) (m : Monitor) : Monitor :=
  mkMonitor (apiKey m) (version m) (disableNetworkMonitoring m)
            (ignoredURLs m) (ignoredViews m) (requests m)
            (raygunRumEndpoint m) (loadingViews m)
            (lastSessionInteractionTime m) s.

Definition tick (w : World) : World :=
  mkWorld (this w) (S (clockReads w)) (guidCalls w) (idCalls w)
          (posts w) (logs w) (currentUser w) (currentTags w).

Definition log (e : LogEntry) (w : World) : World :=
  mkWorld (this w) (clockReads w) (guidCalls w) (idCalls w)
          (posts w) (logs w ++ [e]) (currentUser w) (currentTags w).

Definition push_post (p : Post) (w : World) : World :=
  mkWorld (this w) (clockReads w) (guidCalls w) (idCalls w)
          (posts w ++ [p]) (logs w) (currentUser w) (currentTags w).

Definition bump_guid (w : World) : World :=
  mkWorld (this w) (clockReads w) (S (guidCalls w)) (idCalls w)
          (posts w) (logs w) (currentUser w) (currentTags w).

Definition bump_id (w : World) : World :=
  mkWorld (this w) (clockReads w) (guidCalls w) (S (idCalls w))
          (posts w) (logs w) (currentUser w) (currentTags w).

Section WithHost.

Variable h : Host.

(** [Date.now()] *)
Definition now (w : World) : Z * World :=
  (Date_now h (clockReads w), tick w).

(** *** RUM session management *)

Definition generateNewSessionId (w : World) : World :=
  with_this
    (set_RealUserMonitoringSessionId (getRandomGUID h 32 (guidCalls w)))
    (bump_guid w).

Definition markSessionInteraction (w : World) : World :=
  let '(t, w) := now w in
  with_this (set_lastSessionInteractionTime t) w.

(** *** RUM payload management *)

Definition generateRealUserMonitorPayload
    (eventName : RealUserMonitoringEvents) (d : RumData)
    (timeAt : option number) (w : World) : RealUserMonitorPayload * World :=
  let '(ts, w) :=
    if truthy_opt timeAt
    then (match timeAt with Some t => t | None => NaN end, w)
    else let '(t, w) := now w in (of_Z t, w) in
  (mkPayload eventName ts (currentTags w) (currentUser w)
             (RealUserMonitoringSessionId (this w)) (version (this w))
             (Platform_OS h) (osVersion h) (platform h) d,
   w).

(** The tail of [transmitRealUserMonitoringEvent], after the idle
    check: build the message, log it, POST it, and log a failed
    POST. *)
Definition send (eventName : RealUserMonitoringEvents) (d : RumData)
    (timeAt : option number) (w : World) : World :=
  let '(rumMessage, w) :=
    generateRealUserMonitorPayload eventName d timeAt w in
  let w :=
    log (D_Transmitting (raygunRumEndpoint (this w)) (apiKey (this w))
                        rumMessage) w in
  let n := List.length (posts w) in
  let w :=
    push_post (mkPost (raygunRumEndpoint (this w)) (apiKey (this w))
                      rumMessage) w in
  if fetch_resolves h n then w else log E_UnableToSend w.

(** [transmitRealUserMonitoringEvent] and [rotateRUMSession] call
    each other; [depth] bounds the nesting of their activations. *)
Fixpoint transmitRealUserMonitoringEvent (depth : nat)
    (eventName : RealUserMonitoringEvents) (d : RumData)
    (timeAt : option number) (w : World) : Completion * World :=
  match depth with
  | O => (StackOverflow, w)
  | S depth' =>
      let '(t, w) := now w in
      let '(c, w) :=
        if t - lastSessionInteractionTime (this w) >? SessionRotateThreshold
        then rotateRUMSession depth' w
        else (Normal, markSessionInteraction w) in
      match c with
      | Normal => (Normal, send eventName d timeAt w)
      | _ => (c, w)
      end
  end
with rotateRUMSession (depth : nat) (w : World) : Completion * World :=
  match depth with
  | O => (StackOverflow, w)
  | S depth' =>
      let '(c, w) :=
        transmitRealUserMonitoringEvent depth' SessionEnd NoData None w in
      match c with
      | Normal =>
          let w := generateNewSessionId w in
          let w := markSessionInteraction w in
          transmitRealUserMonitoringEvent depth' SessionStart NoData None w
      | _ => (c, w)
      end
  end.

(** *** RUM event handlers *)

(** The promise of the transmission is not awaited ([.catch()]
    without a handler): the caller only sees the effects. *)
Definition sendNetworkTimingEvent (depth : nat) (name : string)
    (sendTime : option number) (duration : number) (w : World) : World :=
  snd (transmitRealUserMonitoringEvent depth EventTiming
         (Timing name NetworkCall duration) sendTime w).

Definition sendViewLoadedEvent (depth : nat) (name : string)
    (duration : number) (w : World) : Completion * World :=
  if shouldIgnoreView h name (ignoredViews (this w))
  then (Normal, w)
  else transmitRealUserMonitoringEvent depth EventTiming
         (Timing name ViewLoaded duration) None w.

Definition sendCustomRUMEvent (depth : nat)
    (eventType : RealUserMonitoringTimings) (name : string)
    (duration : number) (w : World) : World :=
  match eventType with
  | ViewLoaded => snd (sendViewLoadedEvent depth name duration w)
  | NetworkCall =>
      let '(t, w) := now w in
      sendNetworkTimingEvent depth name (Some (sub (of_Z t) duration))
                             duration w
  | OtherTiming _ => w
  end.

Definition viewBeginsLoading (viewname : string) (time : number)
    (w : World) : World :=
  let w := log (D_ViewStartedLoading viewname) w in
  match loadingViews (this w) !! viewname with
  | Some _ => w
  | None =>
      with_this
        (set_loadingViews (<[viewname := time]> (loadingViews (this w)))) w
  end.

Definition cleanViewName (viewname : string) : string :=
  if String.prefix "iOS_View: " viewname
  then
    let cleanedViewName := remove_first "iOS_View: " viewname in
    let cleanedViewName := remove_first "<" cleanedViewName in
    let cleanedViewName := remove_first ">" cleanedViewName in
    before_first ":" cleanedViewName
  else viewname.

Definition viewFinishesLoading (depth : nat) (viewname : string)
    (time : number) (w : World) : World :=
  let w := log (D_ViewFinishedLoading viewname) w in
  match loadingViews (this w) !! viewname with
  | Some viewLoadStartTime =>
      if truthy viewLoadStartTime
      then
        let duration := Math_round (sub time viewLoadStartTime) in
        let w :=
          with_this
            (set_loadingViews (delete viewname (loadingViews (this w)))) w in
        snd (sendViewLoadedEvent depth (cleanViewName viewname) duration w)
      else log (D_UndefinedStartTime viewname) w
  | None => w
  end.

(** *** Network monitoring *)

Definition handleRequestOpen (method url : string) (xhr : Xhr)
    (w : World) : Xhr * World :=
  if shouldIgnoreURL h url (ignoredURLs (this w))
  then (xhr, w)
  else
    let id := getDeviceId h (idCalls w) in
    let w := bump_id w in
    (mkXhr (Some id),
     with_this
       (set_requests
          (<[id := mkMeta (method ++ " " ++ url) None]> (requests (this w))))
       w).

(** [this.requests.get(xhr._id_)] *)
Definition lookup_request (xhr : Xhr) (w : World) : option RequestMeta :=
  match _id_ xhr with
  | Some id => requests (this w) !! id
  | None => None
  end.

(** [requestMeta.sendTime = Date.now()] writes through to the object
    held by the map. *)
Definition handleRequestSend (data : string) (xhr : Xhr) (w : World)
    : World :=
  match _id_ xhr, lookup_request xhr w with
  | Some id, Some requestMeta =>
      let '(t, w) := now w in
      with_this
        (set_requests
           (<[id := mkMeta (name requestMeta) (Some (of_Z t))]>
              (requests (this w))))
        w
  | _, _ => w
  end.

Definition handleResponse (depth : nat) (status timeout : Z)
    (resp respUrl respType : string) (xhr : Xhr) (w : World) : World :=
  match lookup_request xhr w with
  | Some requestMeta =>
      let '(t, w) := now w in
      let duration := sub_opt (of_Z t) (sendTime requestMeta) in
      sendNetworkTimingEvent depth (name requestMeta)
                             (sendTime requestMeta) duration w
  | None => w
  end.

(** *** The instance as the host drives it *)

(** [new RealUserMonitor(...)]: the instance before the constructor
    body runs has the field initialisers' values. *)
Definition construct (depth : nat) (apiKey : string)
    (disableNetworkMonitoring : bool) (ignoredURLs ignoredViews : list string)
    (customRealUserMonitoringEndpoint version : string)
    (usr : User) (tgs : list string) : World :=
  let urls :=
    ignoredURLs ++ defaultURLIgnoreList ++
    (if String.eqb customRealUserMonitoringEndpoint ""
     then [] else [customRealUserMonitoringEndpoint]) in
  let endpoint :=
    if String.eqb customRealUserMonitoringEndpoint ""
    then "https://api.raygun.com/events"%string
    else customRealUserMonitoringEndpoint in
  let m :=
    mkMonitor apiKey version disableNetworkMonitoring urls
              (ignoredViews ++ defaultViewIgnoreList) ∅ endpoint ∅
              (Date_now h 0) "" in
  let w := mkWorld m 1 0 0 [] [] usr tgs in
  let w := markSessionInteraction w in
  let w := with_this (set_RealUserMonitoringSessionId "") w in
  let w := generateNewSessionId w in
  snd (transmitRealUserMonitoringEvent depth SessionStart NoData None w).

(** The entry points the host can invoke on an instance: the
    native-event listeners, the XHR interceptor callbacks and the
    public methods. *)
Inductive Call :=
| OnSessionPause
| OnSessionResume
| OnViewLoading (viewname : string) (time : number)
| OnViewLoaded (viewname : string) (time : number)
| OnOpen (method url : string) (xhr : Xhr)
| OnSend (data : string) (xhr : Xhr)
| OnResponse (status timeout : Z) (resp respUrl respType : string) (xhr : Xhr)
| SendCustomRUMEvent (eventType : RealUserMonitoringTimings)
                     (name : string) (duration : number)
| Transmit (eventName : RealUserMonitoringEvents) (d : RumData)
           (timeAt : option number)
| SendNetworkTimingEvent (name : string) (sendTime : option number)
                         (duration : number)
| SendViewLoadedEvent (name : string) (duration : number)
| GenerateNewSessionId.

Definition step (depth : nat) (c : Call) (w : World) : World :=
  match c with
  | OnSessionPause => markSessionInteraction w
  | OnSessionResume => snd (rotateRUMSession depth w)
  | OnViewLoading v t => viewBeginsLoading v t w
  | OnViewLoaded v t => viewFinishesLoading depth v t w
  | OnOpen m u x => snd (handleRequestOpen m u x w)
  | OnSend d x => handleRequestSend d x w
  | OnResponse s t r ru rt x => handleResponse depth s t r ru rt x w
  | SendCustomRUMEvent e n d => sendCustomRUMEvent depth e n d w
  | Transmit e d t => snd (transmitRealUserMonitoringEvent depth e d t w)
  | SendNetworkTimingEvent n t d => sendNetworkTimingEvent depth n t d w
  | SendViewLoadedEvent n d => snd (sendViewLoadedEvent depth n d w)
  | GenerateNewSessionId => generateNewSessionId w
  end.

Fixpoint run (depth : nat) (cs : list Call) (w : World) : World :=
  match cs with
  | [] => w
  | c :: cs => run depth cs (step depth c w)
  end.

End WithHost.

End RealUserMonitor.

(** ** The earlier RealUserMonitor variant

    It keeps the idle check in [rotateRUMSession] (run on resume) and
    sends through [sendRUMEvent], which never rotates. *)

Module LegacyMonitor.

(** [RealUserMonitoringEvents] of this variant's [Types] names both
    the message types and the timing types.  The declaration is not
    among the files embedded here: [OtherEvent] stands for any other
    value. *)
Inductive RealUserMonitoringEvents :=
| SessionStart
| SessionEnd
| EventTiming
| ViewLoaded
| NetworkCall
| OtherEvent (tag : string).

Inductive RumData :=
| NoData
| Timing (name : string) (type : RealUserMonitoringEvents) (duration : number).

Record RumMessage := mkMessage {
  type : RealUserMonitoringEvents;
  timestamp : number;
  user : User;
  sessionId : string;
  m_version : string;
  os : string;
  m_osVersion : string;
  m_platform : string;
  data : RumData
}.

(** One [fetch] call: [POST url] with header [X-ApiKey]. *)
Record Post := mkPost {
  post_url : string;
  X_ApiKey : string;
  eventData : RumMessage
}.

Inductive LogEntry :=
| W_UnknownRUMEventType (eventType : RealUserMonitoringEvents)
| L_FetchError.

Record Host := mkHost {
  Date_now : nat -> Z;
  (** [getDeviceBasedId()], at its [n]-th call *)
  getDeviceBasedId : nat -> string;
  Platform_OS : string;
  osVersion : string;
  platform : string;
  fetch_resolves : nat -> bool
}.

Record Monitor := mkMonitor {
  apiKey : string;
  version : string;
  disableNetworkMonitoring : bool;
  customRealUserMonitoringEndpoint : string;
  RAYGUN_RUM_ENDPOINT : string;
  lastActiveAt : Z;
  curRUMSessionId : string
}.

Record World := mkWorld {
  this : Monitor;
  clockReads : nat;
  idCalls : nat;
  posts : list Post;
  logs : list LogEntry;
  (** [this.currentSession.user], read through the shared session *)
  currentSession_user : User
}.

Definition SessionRotateThreshold : Z := 30 * 60 * 1000.

Definition set_lastActiveAt (t : Z) (w : World) : World :=
  let m := this w in
  mkWorld (mkMonitor (apiKey m) (version m) (disableNetworkMonitoring m)
                     (customRealUserMonitoringEndpoint m)
                     (RAYGUN_RUM_ENDPOINT m) t (curRUMSessionId m))
          (clockReads w) (idCalls w) (posts w) (logs w)
          (currentSession_user w).

Definition set_curRUMSessionId (s : string) (w : World) : World :=
  let m := this w in
  mkWorld (mkMonitor (apiKey m) (version m) (disableNetworkMonitoring m)
                     (customRealUserMonitoringEndpoint m)
                     (RAYGUN_RUM_ENDPOINT m) (lastActiveAt m) s)
          (clockReads w) (idCalls w) (posts w) (logs w)
          (currentSession_user w).

Definition tick (w : World) : World :=
  mkWorld (this w) (S (clockReads w)) (idCalls w) (posts w) (logs w)
          (currentSession_user w).

Definition bump_id (w : World) : World :=
  mkWorld (this w) (clockReads w) (S (idCalls w)) (posts w) (logs w)
          (currentSession_user w).

Definition log (e : LogEntry) (w : World) : World :=
  mkWorld (this w) (clockReads w) (idCalls w) (posts w) (logs w ++ [e])
          (currentSession_user w).

Definition push_post (p : Post) (w : World) : World :=
  mkWorld (this w) (clockReads w) (idCalls w) (posts w ++ [p]) (logs w)
          (currentSession_user w).

Section WithHost.

Variable h : Host.

Definition now (w : World) : Z * World :=
  (Date_now h (clockReads w), tick w).

Definition sendRUMEvent (eventName : RealUserMonitoringEvents)
    (d : RumData) (timeAt : option number) (w : World) : World :=
  let '(ts, w) :=
    if truthy_opt timeAt
    then (match timeAt with Some t => t | None => NaN end, w)
    else let '(t, w) := now w in (of_Z t, w) in
  let rumMessage :=
    mkMessage eventName ts (currentSession_user w)
              (curRUMSessionId (this w)) (version (this w))
              (Platform_OS h) (osVersion h) (platform h) d in
  let url :=
    if String.eqb (customRealUserMonitoringEndpoint (this w)) ""
    then RAYGUN_RUM_ENDPOINT (this w)
    else customRealUserMonitoringEndpoint (this w) in
  let n := List.length (posts w) in
  let w := push_post (mkPost url (apiKey (this w)) rumMessage) w in
  if fetch_resolves h n then w else log L_FetchError w.

Definition sendNetworkTimingEventCallback (name : string)
    (sendTime : option number) (duration : number) (w : World) : World :=
  sendRUMEvent EventTiming (Timing name NetworkCall duration) sendTime w.

Definition markLastActiveTime (w : World) : World :=
  let '(t, w) := now w in set_lastActiveAt t w.

Definition rotateRUMSession (w : World) : World :=
  let '(t, w) := now w in
  if t - lastActiveAt (this w) >? SessionRotateThreshold
  then
    let '(t', w) := now w in
    let w := set_lastActiveAt t' w in
    let w := sendRUMEvent SessionEnd NoData None w in
    let w := set_curRUMSessionId (getDeviceBasedId h (idCalls w)) (bump_id w) in
    sendRUMEvent SessionStart NoData None w
  else w.

Definition reportStartupTime (name : string) (duration : number)
    (w : World) : World :=
  let w :=
    if String.eqb (curRUMSessionId (this w)) ""
    then
      let w := set_curRUMSessionId (getDeviceBasedId h (idCalls w)) (bump_id w) in
      sendRUMEvent SessionStart NoData None w
    else w in
  sendRUMEvent EventTiming (Timing name ViewLoaded duration) None w.

Definition sendCustomRUMEvent (apiKey : string)
    (eventType : RealUserMonitoringEvents) (name : string)
    (duration : number) (customRealUserMonitoringEndpoint : option string)
    (w : World) : World :=
  match eventType with
  | ViewLoaded => reportStartupTime name duration w
  | NetworkCall =>
      let '(t, w) := now w in
      sendNetworkTimingEventCallback name (Some (sub (of_Z t) duration))
                                     duration w
  | _ => log (W_UnknownRUMEventType eventType) w
  end.

End WithHost.

End LegacyMonitor.

(** ** src/RaygunClient.ts: session state and crash-report payload *)

Module RaygunClient.

(** JSON-serialisable values, for custom data and environment details. *)
#[warnings="-register-all"] Inductive Json :=
| JNull
| JBool (b : bool)
| JNumber (n : number)
| JString (s : string)
| JArray (l : list Json)
| JObject (fields : list (string * Json)).

Record Breadcrumb := mkBreadcrumb {
  b_customData : gmap string Json;
  category : string;
  level : string;
  message : string;
  b_timestamp : Z
}.

(** [Session]: [tags] is a JavaScript [Set], kept as the list of its
    members in insertion order, without repetition. *)
Record Session := mkSession {
  tags : list string;
  customData : gmap string Json;
  breadcrumbs : list Breadcrumb;
  user : User
}.

(** The options [init] stores in [GlobalOptions] (the [onBeforeSend]
    hook is not used by the functions embedded here). *)
Record RaygunClientOptions := mkOptions {
  enableNetworkMonitoring : bool;
  enableNativeCrashReporting : bool;
  enableRUM : bool;
  ignoreURLs : list string;
  version : string;
  apiKey : string;
  customCrashReportingEndpoint : option string;
  customRUMEndpoint : option string
}.

(** An [Error] value: [name] and [message] may be missing. *)
Record Error := mkError {
  e_name : option string;
  e_message : option string;
  stack : option string
}.

(** [StackFrame] of react-native's [parseErrorStack]. *)
Record StackFrame := mkFrame {
  file : option string;
  methodName : option string;
  lineNumber : option Z;
  column : option Z
}.

(** The [stackFrames] argument: an array of frames, or anything else,
    which is then read as one frame. *)
Inductive StackFrames :=
| FrameArray (frames : list StackFrame)
| SingleFrame (frame : StackFrame).

Record CrashReportingStackFrame := mkCRFrame {
  FileName : option string;
  MethodName : string;
  LineNumber : option Z;
  ColumnNumber : option Z;
  ClassName : string
}.

Record ErrorDetails := mkErrorDetails {
  Error_ClassName : string;
  Message : string;
  StackTrace : list CrashReportingStackFrame;
  StackString : string
}.

Record ClientDetails := mkClientDetails {
  Client_Name : string;
  Client_Version : string
}.

Record Details := mkDetails {
  Error_ : ErrorDetails;
  Environment : gmap string Json;
  Client : ClientDetails;
  UserCustomData : gmap string Json;
  Tags : list string;
  User_ : Json;
  Breadcrumbs : Json;
  Version : string
}.

Record CrashReportPayload := mkCrashReport {
  OccurredOn : Z;
  Details_ : Details
}.

(** Calls mirrored to [RaygunNativeBridge]. *)
Inductive BridgeCall :=
| Bridge_setTags (tags : list string)
| Bridge_clearSession.

(** What the module imports from modules that are not among the files
    embedded here, and the host. *)
Record Host := mkHost {
  Date_now : nat -> Z;
  (** [new Date().getTimezoneOffset()], in minutes *)
  getTimezoneOffset : Z;
  (** [getDeviceBasedId()], at its [n]-th call *)
  getDeviceBasedId : nat -> string;
  (** [upperFirst] of [./helper], at the two types it is applied to *)
  upperFirst_user : User -> Json;
  upperFirst_breadcrumbs : list Breadcrumb -> Json;
  (** [version] of [package.json] *)
  clientVersion : string;
  Platform_OS : string;
  (** what [RaygunNativeBridge.getEnvironmentInfo()] resolves to;
      [None] when the bridge has no such function *)
  getEnvironmentInfo : option (gmap string Json)
}.

(** The module-level variables and the effects so far.
    [GlobalOptions] is [undefined] until [init] has run. *)
Record State := mkState {
  curSession : Session;
  GlobalOptions : option RaygunClientOptions;
  clockReads : nat;
  idCalls : nat;
  bridgeCalls : list BridgeCall
}.

Definition set_curSession (s : Session) (st : State) : State :=
  mkState s (GlobalOptions st) (clockReads st) (idCalls st) (bridgeCalls st).

Definition tick (st : State) : State :=
  mkState (curSession st) (GlobalOptions st) (S (clockReads st))
          (idCalls st) (bridgeCalls st).

Definition bump_id (st : State) : State :=
  mkState (curSession st) (GlobalOptions st) (clockReads st)
          (S (idCalls st)) (bridgeCalls st).

Definition bridge (c : BridgeCall) (st : State) : State :=
  mkState (curSession st) (GlobalOptions st) (clockReads st) (idCalls st)
          (bridgeCalls st ++ [c]).

(** [set.add(x)] on an insertion-ordered set. *)
Definition Set_add (x : string) (s : list string) : list string :=
  if bool_decide (x ∈ s) then s else s ++ [x].

(** [`${n}`] for a possibly [undefined] integer. *)
Definition template (n : option Z) : string :=
  match n with
  | Some z => pretty z
  | None => "undefined"
  end.

(** [Error.prototype.toString] *)
Definition Error_toString (e : Error) : string :=
  let name := match e_name e with Some n => n | None => "Error"%string end in
  let msg := or_empty (e_message e) in
  if String.eqb name "" then msg
  else if String.eqb msg "" then name
  else name ++ ": " ++ msg.

Section WithHost.

Variable h : Host.

(** [getCleanSession()] reads [getDeviceBasedId()] once. *)
Definition getCleanSession (st : State) : Session * State :=
  (mkSession ["React Native"%string] ∅ []
     (mkUser ("anonymous-" ++ getDeviceBasedId h (idCalls st))
             None None None None None),
   bump_id st).

Definition getCurrentUser (st : State) : User := user (curSession st).

(** [addTag(...tags)] *)
Definition addTag (newTags : list string) (st : State)
    : Completion * State :=
  let s := curSession st in
  let s' :=
    mkSession (fold_left (fun acc t => Set_add t acc) newTags (tags s))
              (customData s) (breadcrumbs s) (user s) in
  let st := set_curSession s' st in
  match GlobalOptions st with
  | None => (TypeError, st)
  | Some o =>
      if enableNativeCrashReporting o
      then (Normal, bridge (Bridge_setTags (tags s')) st)
      else (Normal, st)
  end.

(** [clearSession()]: the assignment to [curSession] comes first;
    reading a property of an undefined [GlobalOptions] then throws. *)
Definition clearSession (st : State) : Completion * State :=
  let '(s, st) := getCleanSession st in
  let st := set_curSession s st in
  match GlobalOptions st with
  | None => (TypeError, st)
  | Some o =>
      if enableNativeCrashReporting o
      then (Normal, bridge Bridge_clearSession st)
      else (Normal, st)
  end.

Definition convertToCrashReportingStackFrame (f : StackFrame)
    : CrashReportingStackFrame :=
  mkCRFrame (file f)
            (match methodName f with
             | Some m => if String.eqb m "" then "[anonymous]" else m
             | None => "[anonymous]"
             end)%string
            (lineNumber f)
            (column f)
            ("line " ++ template (lineNumber f) ++
             ", column " ++ template (column f)).

(** [generateCrashReportPayload(error, stackFrames, session)].
    [error] is [None] for [null] or [undefined].  The result is
    [None] when the promise is rejected: [GlobalOptions.version] is
    read last, and throws while [GlobalOptions] is undefined. *)
Definition generateCrashReportPayload (error : option Error)
    (stackFrames : StackFrames) (session : Session) (st : State)
    : option CrashReportPayload * State :=
  let environmentDetails :=
    match getEnvironmentInfo h with
    | Some e => e
    | None => ∅
    end in
  let occurredOn := Date_now h (clockReads st) in
  let st := tick st in
  let err :=
    mkErrorDetails
      (match error with Some e => or_empty (e_name e) | None => "" end)
      (match error with Some e => or_empty (e_message e) | None => "" end)
      (match stackFrames with
       | FrameArray fs => map convertToCrashReportingStackFrame fs
       | SingleFrame f => [convertToCrashReportingStackFrame f]
       end)
      (match error with Some e => Error_toString e | None => "" end) in
  let st := tick st in
  let env : gmap string Json :=
    environmentDetails ∪
    <["UtcOffset"%string := JNumber (Num (inject_Z (getTimezoneOffset h) / 60))]>
      (<["JailBroken"%string := JBool false]> ∅) in
  let client :=
    mkClientDetails ("raygun4reactnative." ++ Platform_OS h)
                    (clientVersion h) in
  match GlobalOptions st with
  | None => (None, st)
  | Some o =>
      (Some
         (mkCrashReport occurredOn
            (mkDetails err env client (customData session) (tags session)
               (upperFirst_user h (user session))
               (upperFirst_breadcrumbs h (breadcrumbs session))
               (if String.eqb (version o) "" then "Not supplied"
                else version o)%string)),
       st)
  end.

End WithHost.

End RaygunClient.

(** ** Sample hosts and instances *)

Module Sample.

(** Modelled from the spec: [getDeviceId] of [./Utils] is not among
    the files embedded here.  The spec lists the identity utilities as pure
    functions, the first being the "stable per-device identifier", and
    [handleRequestOpen] itself says "Obtain the device ID": the same
    identifier at every call. *)
Definition stable_getDeviceId (DEVICE_ID : string) : nat -> string :=
  fun _ => DEVICE_ID.

(** Modelled from the spec: [shouldIgnoreURL] and [shouldIgnoreView] of
    [./Utils] are not among the files embedded here; the spec calls them
    "URL/view ignore-list matching".  Here a name matches when it is
    on the list. *)
Definition on_ignore_list (x : string) (l : list string) : bool :=
  existsb (String.eqb x) l.

Definition anonymous : User :=
  mkUser "anonymous-device-1" (Some true) None None None None.

(** A clock that starts at [start] and advances one millisecond per
    reading. *)
Definition clock_from (start : Z) : nat -> Z :=
  fun n => start + Z.of_nat n.

Definition host_from (start : Z) : RealUserMonitor.Host :=
  RealUserMonitor.mkHost (clock_from start)
    (fun _ n => ("guid-" ++ pretty n)%string)
    (stable_getDeviceId "device-1")
    on_ignore_list on_ignore_list
    "ios" "14.4" "iPhone12,1"
    (fun _ => true).

(** The device at epoch millisecond 1000, and the same device more
    than half an hour later. *)
Definition host : RealUserMonitor.Host := host_from 1000.
Definition later_host : RealUserMonitor.Host := host_from 2000000.

(** A freshly constructed monitor that ignores the view "Splash". *)
Definition fresh : RealUserMonitor.World :=
  Eval vm_compute in
    RealUserMonitor.construct host 2 "key" false [] ["Splash"%string] "" "1.0"
                              anonymous ["React Native"%string].

(** The same monitor with one request opened and not yet sent. *)
Definition opened : RealUserMonitor.World :=
  snd (RealUserMonitor.handleRequestOpen host "GET" "https://example.com/a"
         (RealUserMonitor.mkXhr None) fresh).

(** ... and with that request sent. *)
Definition sent : RealUserMonitor.World :=
  RealUserMonitor.handleRequestSend host ""
    (RealUserMonitor.mkXhr (Some "device-1"%string)) opened.

Definition legacy_host : LegacyMonitor.Host :=
  LegacyMonitor.mkHost (clock_from 2000000) (fun n => ("device-1-" ++ pretty n)%string)
    "ios" "14.4" "iPhone12,1" (fun _ => true).

(** A legacy monitor last active at millisecond 1000. *)
Definition legacy_world : LegacyMonitor.World :=
  LegacyMonitor.mkWorld
    (LegacyMonitor.mkMonitor "key" "1.0" false "" "https://api.raygun.com/events"
                             1000 "device-1-0")
    0 1 [] [] anonymous.

Definition client_host : RaygunClient.Host :=
  RaygunClient.mkHost (clock_from 1000) (-720)
    (fun n => ("device-1-" ++ pretty n)%string)
    (fun u => RaygunClient.JObject
                [("Identifier"%string, RaygunClient.JString (identifier u))])
    (fun bs => RaygunClient.JArray
                 (map (fun b => RaygunClient.JObject
                                  [("Message"%string,
                                    RaygunClient.JString (RaygunClient.message b))])
                      bs))
    "1.0.0" "ios" None.

Definition options : RaygunClient.RaygunClientOptions :=
  RaygunClient.mkOptions true false true [] "" "key" None None.

(** A client session that has been used: two tags, custom data, a
    breadcrumb and a named user. *)
Definition used_session : RaygunClient.Session :=
  RaygunClient.mkSession
    ["React Native"; "x"]%string
    {["plan"%string := RaygunClient.JString "pro"]}
    [RaygunClient.mkBreadcrumb ∅ "" "info" "opened settings" 1000]
    (mkUser "ronald" (Some false) (Some "r@example.com") None None None).

Definition client_state : RaygunClient.State :=
  RaygunClient.mkState used_session (Some options) 0 1 [].

End Sample.

(** ** src/RaygunClient.ts: the remaining session operations, [init]
    and the error pipeline *)

Module ClientOps.

Import RaygunClient.

(** The options object handed to [init]: every property may be absent. *)
Record InitOptions := mkInitOptions {
  i_enableNetworkMonitoring : option bool;
  i_enableNativeCrashReporting : option bool;
  i_enableRUM : option bool;
  i_ignoreURLs : option (list string);
  i_version : option string;
  i_apiKey : option string;
  i_customCrashReportingEndpoint : option string;
  i_customRUMEndpoint : option string;
  i_onBeforeSend : option (CrashReportPayload -> option CrashReportPayload)
}.

(** The [details] argument of [recordBreadcrumb]: the properties of a
    breadcrumb it may carry, each possibly absent. *)
Record BreadcrumbOption := mkBreadcrumbOption {
  o_customData : option (gmap string Json);
  o_category : option string;
  o_level : option string;
  o_message : option string;
  o_timestamp : option Z
}.

(** The argument of [setUser]: an identifier or a user object. *)
Inductive UserArg :=
| UserId (identifier : string)
| UserObject (u : User).

(** [RUMEvents.ActivityLoaded | RUMEvents.NetworkCall] *)
Inductive RUMEvents :=
| ActivityLoaded
| NetworkCall.

(** The rest parameters of [sendCustomError], in the shapes of its
    overloads: none, a tag array, a custom-data object, or both
    positions (each possibly [null] or [undefined]). *)
Inductive CustomErrorParams :=
| NoParams
| TagsOnly (tags : list string)
| DataOnly (customData : gmap string Json)
| DataAndTags (customData : option (gmap string Json))
              (tags : option (list string)).

(** What the functions below do to the world outside the module, one
    constructor per call site. *)
Inductive Effect :=
| Log_AlreadyInitialized
| Log_SendViaNative
| Log_SendViaJS
| Warn_RUMNotEnabled
| Warn_UnrecognizedError
| Native_init (apiKey : string) (enableRUM : bool) (version : string)
              (customCrashReportingEndpoint : option string)
| Native_setUser (u : User)
| Native_setCustomData (d : gmap string Json)
| Native_recordBreadcrumb (b : Breadcrumb)
| Native_sendCrashReport (payload : CrashReportPayload) (apiKey : string)
| Transport_sendCrashReport (payload : CrashReportPayload) (apiKey : string)
                            (customCrashReportingEndpoint : option string)
| RUM_setup (apiKey : string) (enableNetworkMonitoring : bool)
            (ignoreURLs : list string) (customRUMEndpoint : option string)
| RUM_sendCustomRUMEvent (apiKey : string) (eventType : RUMEvents)
                         (name : string) (timeUsedInMs : number)
                         (customRUMEndpoint : option string)
| Handlers_installed
| Timer_sendCachedReports (apiKey : string)
                          (customCrashReportingEndpoint : option string).

(** What the error pipeline and [init] take from react-native and the
    native bridge. *)
Record Platform := mkPlatform {
  (** [RaygunNativeBridge && typeof RaygunNativeBridge.init === 'function'] *)
  bridge_has_init : bool;
  (** what [RaygunNativeBridge.hasInitialized()] resolves to *)
  hasInitialized : bool;
  __DEV__ : bool;
  parseErrorStack : Error -> list StackFrame;
  (** what [symbolicateStackTrace] resolves to; [None] for a falsy value *)
  symbolicateStackTrace : list StackFrame -> option StackFrames
}.

(** The module-level state of [RaygunClient] together with the
    [onBeforeSend] hook of [GlobalOptions] and the effects so far
    (oldest first).  The calls mirrored by [addTag] and [clearSession]
    stay in [bridgeCalls] of the client state. *)
Record Runtime := mkRuntime {
  client : State;
  onBeforeSend : option (CrashReportPayload -> option CrashReportPayload);
  effects : list Effect
}.

Definition with_client (f : State -> State) (rt : Runtime) : Runtime :=
  mkRuntime (f (client rt)) (onBeforeSend rt) (effects rt).

Definition emit (e : Effect) (rt : Runtime) : Runtime :=
  mkRuntime (client rt) (onBeforeSend rt) (effects rt ++ [e]).

Definition set_GlobalOptions (o : RaygunClientOptions) (st : State) : State :=
  mkState (curSession st) (Some o) (clockReads st) (idCalls st)
          (bridgeCalls st).

Definition set_user (u : User) (s : Session) : Session :=
  mkSession (tags s) (customData s) (breadcrumbs s) u.

Definition set_customData (d : gmap string Json) (s : Session) : Session :=
  mkSession (tags s) d (breadcrumbs s) (user s).

Definition set_tags (t : list string) (s : Session) : Session :=
  mkSession t (customData s) (breadcrumbs s) (user s).

Definition push_breadcrumb (b : Breadcrumb) (s : Session) : Session :=
  mkSession (tags s) (customData s) (breadcrumbs s ++ [b]) (user s).

Definition with_session (f : Session -> Session) (st : State) : State :=
  set_curSession (f (curSession st)) st.

(** [o.x] where a default is in place: [Object.assign(defaults, options)]
    keeps the default of an absent property. *)
Definition assigned {A} (default : A) (x : option A) : A :=
  match x with
  | Some v => v
  | None => default
  end.

(** [if (GlobalOptions.enableNativeCrashReporting) RaygunNativeBridge.f(...)]:
    reading the property of an undefined [GlobalOptions] throws. *)
Definition mirror (e : Effect) (rt : Runtime) : Completion * Runtime :=
  match GlobalOptions (client rt) with
  | None => (TypeError, rt)
  | Some o =>
      if enableNativeCrashReporting o then (Normal, emit e rt)
      else (Normal, rt)
  end.

Section WithHost.

Variable h : Host.
Variable pf : Platform.

(** [init(options)].  The result is [None] when the promise is
    rejected: [RaygunNativeBridge.init] is called without being a
    function. *)
Definition init (options : InitOptions) (rt : Runtime)
    : option bool * Runtime :=
  let o :=
    mkOptions (assigned true (i_enableNetworkMonitoring options))
              (assigned true (i_enableNativeCrashReporting options))
              (assigned true (i_enableRUM options))
              (assigned [] (i_ignoreURLs options))
              (assigned "" (i_version options))
              (assigned "" (i_apiKey options))
              (i_customCrashReportingEndpoint options)
              (i_customRUMEndpoint options) in
  let rt :=
    mkRuntime (set_GlobalOptions o (client rt)) (i_onBeforeSend options)
              (effects rt) in
  let useNativeCR := enableNativeCrashReporting o && bridge_has_init pf in
  let alreadyInitialized := useNativeCR && hasInitialized pf in
  if alreadyInitialized then (Some false, emit Log_AlreadyInitialized rt)
  else
    let rt :=
      if enableRUM o
      then emit (RUM_setup (apiKey o) (enableNetworkMonitoring o)
                           (ignoreURLs o) (customRUMEndpoint o)) rt
      else rt in
    let bridge_init :=
      if useNativeCR || enableRUM o
      then
        if bridge_has_init pf
        then Some (emit (Native_init (apiKey o) (enableRUM o) (version o)
                                     (customCrashReportingEndpoint o)) rt)
        else None
      else Some rt in
    match bridge_init with
    | None => (None, rt)
    | Some rt =>
        let rt := emit Handlers_installed rt in
        let rt :=
          if useNativeCR then rt
          else emit (Timer_sendCachedReports (apiKey o)
                                             (customCrashReportingEndpoint o)) rt in
        (Some true, rt)
    end.

(** [sendRUMTimingEvent(eventType, name, timeUsedInMs)] *)
Definition sendRUMTimingEvent (eventType : RUMEvents) (name : string)
    (timeUsedInMs : number) (rt : Runtime) : Completion * Runtime :=
  match GlobalOptions (client rt) with
  | None => (TypeError, rt)
  | Some o =>
      if enableRUM o
      then (Normal,
            emit (RUM_sendCustomRUMEvent (apiKey o) eventType name
                                         timeUsedInMs (customRUMEndpoint o)) rt)
      else (Normal, emit Warn_RUMNotEnabled rt)
  end.

(** [addTag], on the runtime. *)
Definition addTag (newTags : list string) (rt : Runtime)
    : Completion * Runtime :=
  let '(c, st) := RaygunClient.addTag newTags (client rt) in
  (c, with_client (fun _ => st) rt).

(** [setUser(user)].  In a user object [None] is an absent property;
    [Object.assign] then keeps the default. *)
Definition setUser (user : UserArg) (rt : Runtime) : Completion * Runtime :=
  let '(userObj, rt) :=
    match user with
    | UserId s =>
        if String.eqb s ""
        then
          (mkUser ("anonymous-" ++ getDeviceBasedId h (idCalls (client rt)))
                  (Some true) (Some "") (Some "") (Some "") None,
           with_client bump_id rt)
        else (mkUser s (Some false) (Some "") (Some "") (Some "") None, rt)
    | UserObject u =>
        (mkUser (identifier u)
                (Some (assigned false (isAnonymous u)))
                (Some (assigned "" (email u)))
                (Some (assigned "" (firstName u)))
                (Some (assigned "" (fullName u)))
                (uuid u),
         rt)
    end%string in
  let rt := with_client (with_session (set_user userObj)) rt in
  mirror (Native_setUser userObj) rt.

(** [addCustomData(customData)]: [Object.assign({}, old, customData)]. *)
Definition addCustomData (d : gmap string Json) (rt : Runtime)
    : Completion * Runtime :=
  let merged := d ∪ customData (curSession (client rt)) in
  let rt := with_client (with_session (set_customData merged)) rt in
  mirror (Native_setCustomData merged) rt.

(** [updateCustomData(updater)] *)
Definition updateCustomData
    (updater : gmap string Json -> gmap string Json) (rt : Runtime)
    : Completion * Runtime :=
  let updated := updater (customData (curSession (client rt))) in
  let rt := with_client (with_session (set_customData updated)) rt in
  mirror (Native_setCustomData updated) rt.

(** [recordBreadcrumb(message, details)]: the object literal spreads
    [details] over the defaults and the message, and sets [timestamp]
    last. *)
Definition recordBreadcrumb (message : string)
    (details : option BreadcrumbOption) (rt : Runtime)
    : Completion * Runtime :=
  let d :=
    match details with
    | Some d => d
    | None => mkBreadcrumbOption None None None None None
    end in
  let t := Date_now h (clockReads (client rt)) in
  let rt := with_client tick rt in
  let breadcrumb :=
    mkBreadcrumb (assigned ∅ (o_customData d))
                 (assigned "" (o_category d))
                 (assigned "info" (o_level d))
                 (assigned message (o_message d))
                 t in
  let rt := with_client (with_session (push_breadcrumb breadcrumb)) rt in
  mirror (Native_recordBreadcrumb breadcrumb) rt.

(** [clearSession], on the runtime. *)
Definition clearSession (rt : Runtime) : Completion * Runtime :=
  let '(c, st) := RaygunClient.clearSession h (client rt) in
  (c, with_client (fun _ => st) rt).

(** [!error || !error.stack] *)
Definition unrecognized (error : option Error) : bool :=
  match error with
  | Some e =>
      match stack e with
      | Some s => String.eqb s ""
      | None => true
      end
  | None => true
  end.

(** The frames handed to the payload builder.  In a development build
    they are what [symbolicateStackTrace] resolves to, or [[]] if that
    is falsy; otherwise they are the object [{ stack: ... }], which has
    none of a frame's properties.  The [filter] and [map] of the source
    apply to the literal [[]]. *)
Definition stack_of (error : Error) : StackFrames :=
  let stackFrame := parseErrorStack pf error in
  if __DEV__ pf
  then
    match symbolicateStackTrace pf stackFrame with
    | Some cleanedStackFrames => cleanedStackFrames
    | None => FrameArray []
    end
  else SingleFrame (mkFrame None None None None).

(** [processUnhandledError(error, isFatal)] *)
Definition processUnhandledError (error : option Error) (isFatal : bool)
    (rt : Runtime) : Completion * Runtime :=
  if unrecognized error then (Normal, emit Warn_UnrecognizedError rt)
  else
    match error with
    | None => (Normal, emit Warn_UnrecognizedError rt)
    | Some e =>
        let stack := stack_of e in
        let rt :=
          if isFatal
          then with_client
                 (with_session
                    (fun s => set_tags (Set_add "Fatal" (tags s)) s)) rt
          else rt in
        let '(payload, st) :=
          generateCrashReportPayload h error stack (curSession (client rt))
                                     (client rt) in
        let rt := with_client (fun _ => st) rt in
        match payload, GlobalOptions (client rt) with
        | Some payload, Some o =>
            let modifiedPayload :=
              match onBeforeSend rt with
              | Some hook => hook payload
              | None => Some payload
              end in
            match modifiedPayload with
            | None => (Normal, rt)
            | Some modifiedPayload =>
                if enableNativeCrashReporting o
                then
                  (Normal,
                   emit (Native_sendCrashReport modifiedPayload (apiKey o))
                        (emit Log_SendViaNative rt))
                else
                  (Normal,
                   emit (Transport_sendCrashReport modifiedPayload (apiKey o)
                           (customCrashReportingEndpoint o))
                        (emit Log_SendViaJS rt))
            end
        | _, _ => (TypeError, rt)
        end
    end.

(** [processUnhandledRejection(id, error)] *)
Definition processUnhandledRejection (id : Z) (error : option Error)
    (rt : Runtime) : Completion * Runtime :=
  processUnhandledError error false rt.

(** [sendCustomError(error, ...params)] *)
Definition sendCustomError (error : option Error)
    (params : CustomErrorParams) (rt : Runtime) : Completion * Runtime :=
  let '(customData, tags) :=
    match params with
    | NoParams => (None, None)
    | TagsOnly t => (None, Some t)
    | DataOnly d => (Some d, None)
    | DataAndTags d t => (d, t)
    end in
  let '(c, rt) :=
    match customData with
    | Some d => addCustomData d rt
    | None => (Normal, rt)
    end in
  match c with
  | Normal =>
      let '(c, rt) :=
        match tags with
        | Some (t :: ts) => addTag (t :: ts) rt
        | _ => (Normal, rt)
        end in
      match c with
      | Normal => processUnhandledError error false rt
      | _ => (c, rt)
      end
  | _ => (c, rt)
  end.

End WithHost.

End ClientOps.

(** ** More sample hosts and states *)

Module Sample2.

(** A production build with the native bridge linked and not yet
    initialised; the parser finds one frame. *)
Definition platform : ClientOps.Platform :=
  ClientOps.mkPlatform true false false
    (fun _ => [RaygunClient.mkFrame (Some "a.js"%string) (Some "render"%string)
                                    (Some 5) (Some 2)])
    (fun fs => Some (RaygunClient.FrameArray fs)).

(** The same device running a development build. *)
Definition dev_platform : ClientOps.Platform :=
  ClientOps.mkPlatform true false true
    (fun _ => [RaygunClient.mkFrame (Some "a.js"%string) (Some "render"%string)
                                    (Some 5) (Some 2)])
    (fun fs => Some (RaygunClient.FrameArray fs)).

Definition boom : RaygunClient.Error :=
  RaygunClient.mkError (Some "Error"%string) (Some "boom"%string)
                       (Some "Error: boom at render (a.js:5:2)"%string).

(** The client after [init], with a used session and no hook. *)
Definition runtime : ClientOps.Runtime :=
  ClientOps.mkRuntime Sample.client_state None [].

(** The client before [init]. *)
Definition cold_runtime : ClientOps.Runtime :=
  ClientOps.mkRuntime
    (RaygunClient.mkState Sample.used_session None 0 1 []) None [].

End Sample2.

(** ** Vocabulary of the statements *)

Module Import Obs.

Import RealUserMonitor.

(** The session is idle-expired at the next reading of the clock. *)
Definition expired (h : Host) (w : World) : Prop :=
  Date_now h (clockReads w) - lastSessionInteractionTime (this w)
  > SessionRotateThreshold.

(** The clock never runs backwards. *)
Definition monotone_clock (h : Host) : Prop :=
  forall n, Date_now h n <= Date_now h (S n).

(** [w] after [k] further readings of the clock and nothing else. *)
Definition clock_read (k : nat) (w : World) : World :=
  mkWorld (this w) (k + clockReads w) (guidCalls w) (idCalls w)
          (posts w) (logs w) (currentUser w) (currentTags w).

(** The parts of an instance that transmission never writes. *)
Definition pending (w : World)
    : gmap string RequestMeta * gmap string number * list string * list string :=
  (requests (this w), loadingViews (this w),
   ignoredURLs (this w), ignoredViews (this w)).

(** A POST carries a timing event of the given kind, name and duration. *)
Definition is_timing (p : Post) (kind : RealUserMonitoringTimings)
    (nm : string) (duration : number) : Prop :=
  type (eventData p) = EventTiming /\
  data (eventData p) = Timing nm kind duration.




End Obs.

(** ** Further vocabulary *)

Module Import Obs2.

(** Whether the character occurs in the string. *)
Fixpoint has_char (c : Ascii.ascii) (s : string) : bool :=
  match s with
  | EmptyString => false
  | String a s' => if Ascii.eqb a c then true else has_char c s'
  end.

(** The crash report an effect hands to the native bridge or to the
    transport, if it is such an effect. *)
Definition reported (e : ClientOps.Effect)
    : option RaygunClient.CrashReportPayload :=
  match e with
  | ClientOps.Native_sendCrashReport p _ => Some p
  | ClientOps.Transport_sendCrashReport p _ _ => Some p
  | _ => None
  end.

(** The effect by which a crash report leaves the client under the
    given options. *)
Definition send_effects (o : RaygunClient.RaygunClientOptions)
    (p : RaygunClient.CrashReportPayload) : list ClientOps.Effect :=
  if RaygunClient.enableNativeCrashReporting o
  then [ClientOps.Log_SendViaNative;
        ClientOps.Native_sendCrashReport p (RaygunClient.apiKey o)]
  else [ClientOps.Log_SendViaJS;
        ClientOps.Transport_sendCrashReport p (RaygunClient.apiKey o)
          (RaygunClient.customCrashReportingEndpoint o)].

(** How a session operation notifies the native side: once [init] has
    run it completes normally and the given call is made exactly when
    native crash reporting is enabled; before that it throws and makes
    no call. *)
Definition mirrors (rt : ClientOps.Runtime)
    (r : Completion * ClientOps.Runtime) (e : ClientOps.Effect) : Prop :=
  match RaygunClient.GlobalOptions (ClientOps.client rt) with
  | Some o =>
      fst r = Normal /\
      ClientOps.effects (snd r)
      = ClientOps.effects rt
        ++ (if RaygunClient.enableNativeCrashReporting o then [e] else [])
  | None =>
      fst r = TypeError /\
      ClientOps.effects (snd r) = ClientOps.effects rt
  end.

(** The session held by a runtime. *)
Definition session_of (rt : ClientOps.Runtime) : RaygunClient.Session :=
  RaygunClient.curSession (ClientOps.client rt).

(** The session after the error pipeline has marked it, or not, as
    having met a fatal error. *)
Definition marked (isFatal : bool) (s : RaygunClient.Session)
    : RaygunClient.Session :=
  if isFatal
  then ClientOps.set_tags (RaygunClient.Set_add "Fatal" (RaygunClient.tags s)) s
  else s.

(** What leaves the client for a built payload: nothing if the
    [onBeforeSend] hook returns a falsy value, otherwise the payload the
    hook returns, or the built one if there is no hook. *)
Definition after_hook
    (hook : option (RaygunClient.CrashReportPayload
                    -> option RaygunClient.CrashReportPayload))
    (o : RaygunClient.RaygunClientOptions)
    (p : RaygunClient.CrashReportPayload) : list ClientOps.Effect :=
  match hook with
  | None => send_effects o p
  | Some f =>
      match f p with
      | Some p' => send_effects o p'
      | None => []
      end
  end.

(** The tags and the custom data handed to [sendCustomError]. *)
Definition given_tags (params : ClientOps.CustomErrorParams) : list string :=
  match params with
  | ClientOps.TagsOnly t => t
  | ClientOps.DataAndTags _ (Some t) => t
  | _ => []
  end.

Definition given_data (params : ClientOps.CustomErrorParams)
    : gmap string RaygunClient.Json :=
  match params with
  | ClientOps.DataOnly d => d
  | ClientOps.DataAndTags (Some d) _ => d
  | _ => ∅
  end.

(** The stack-trace entry built from an object that has none of a
    frame's properties. *)
Definition blank_entry : RaygunClient.CrashReportingStackFrame :=
  RaygunClient.mkCRFrame None "[anonymous]" None None
                         "line undefined, column undefined".

End Obs2.

(** ** Frame properties of transmission *)

Section TransmitFacts.

Import RealUserMonitor.

Variable h : Host.

Lemma pending_tick w : pending (tick w) = pending w.
Proof. reflexivity. Qed.

Lemma pending_markSessionInteraction w :
  pending (markSessionInteraction h w) = pending w.
Proof. reflexivity. Qed.

Lemma pending_generateNewSessionId w :
  pending (generateNewSessionId h w) = pending w.
Proof. reflexivity. Qed.

Lemma pending_send ev d t w : pending (send h ev d t w) = pending w.
Proof.
  unfold send, generateRealUserMonitorPayload.
  destruct (truthy_opt t); cbn;
    match goal with |- context [fetch_resolves h ?n] =>
      destruct (fetch_resolves h n) end; reflexivity.
Qed.

Lemma pending_transmit_rotate depth :
  (forall ev d t w,
      pending (snd (transmitRealUserMonitoringEvent h depth ev d t w))
      = pending w) /\
  (forall w, pending (snd (rotateRUMSession h depth w)) = pending w).
Proof.
  induction depth as [|depth [IHt IHr]]; [split; reflexivity|].
  assert (Ht : forall ev d t w,
             pending (snd (transmitRealUserMonitoringEvent h (S depth) ev d t w))
             = pending w).
  { intros ev d t w. cbn [transmitRealUserMonitoringEvent now].
    destruct (_ >? _).
    - specialize (IHr (tick w)).
      destruct (rotateRUMSession h depth (tick w)) as [[] w'];
        cbn [snd] in *; rewrite ?pending_send; exact IHr.
    - cbn [snd]. rewrite pending_send. reflexivity. }
  split; [exact Ht|].
  intros w. cbn [rotateRUMSession].
  pose proof (IHt SessionEnd NoData None w) as Hend.
  destruct (transmitRealUserMonitoringEvent h depth SessionEnd NoData None w)
    as [[] w']; cbn [snd] in *; try exact Hend.
  rewrite IHt, pending_markSessionInteraction, pending_generateNewSessionId.
  exact Hend.
Qed.

End TransmitFacts.

(** ** Idle expiry: the rotation never gets under way *)

Section IdleExpiry.

Import RealUserMonitor.

Variable h : Host.
Hypothesis clock : monotone_clock h.

Lemma expired_clock_read k w : expired h w -> expired h (clock_read k w).
Proof.
  unfold expired, clock_read; cbn.
  induction k as [|k IH]; cbn; [tauto|].
  intros H. specialize (IH H). pose proof (clock (k + clockReads w)%nat). lia.
Qed.

Lemma tick_clock_read k w : tick (clock_read k w) = clock_read (S k) w.
Proof. reflexivity. Qed.

(** While the session is idle-expired, a transmission and a rotation
    of any depth end in the overflow, having only read the clock. *)
Lemma expired_overflows depth :
  (forall ev d t w, expired h w ->
     exists k, transmitRealUserMonitoringEvent h depth ev d t w
               = (StackOverflow, clock_read k w)) /\
  (forall w, expired h w ->
     exists k, rotateRUMSession h depth w = (StackOverflow, clock_read k w)).
Proof.
  induction depth as [|depth [IHt IHr]].
  - split; intros; exists 0%nat; destruct w; reflexivity.
  - assert (Ht : forall ev d t w, expired h w ->
              exists k, transmitRealUserMonitoringEvent h (S depth) ev d t w
                        = (StackOverflow, clock_read k w)).
    { intros ev d t w Hw. cbn [transmitRealUserMonitoringEvent now].
      assert (Hgt : (Date_now h (clockReads w)
                     - lastSessionInteractionTime (this (tick w))
                     >? SessionRotateThreshold) = true)
        by (apply Z.gtb_lt; unfold expired in Hw; cbn; lia).
      rewrite Hgt.
      destruct (IHr (tick w)) as [k Hk].
      { apply (expired_clock_read 1 w Hw). }
      rewrite Hk. exists (S k). f_equal. unfold clock_read; cbn.
      f_equal. lia. }
    split; [exact Ht|].
    intros w Hw. cbn [rotateRUMSession].
    destruct (IHt SessionEnd NoData None w Hw) as [k Hk].
    rewrite Hk. eauto.
Qed.

End IdleExpiry.

(** C1 (the code at the failing input).  When more than 30 minutes have
    passed since the last session interaction and the clock does not run
    backwards, [transmitRealUserMonitoringEvent] never reaches a POST:
    the idle check sends it into [rotateRUMSession], whose SessionEnd
    transmission meets the same, still unrefreshed, idle check.  Whatever
    nesting depth is allowed, the call ends in the overflow with no
    SessionEnd, no SessionStart and no triggering event sent, and with
    the session id unchanged. *)
Theorem idle_transmit_never_rotates :
  forall (h : RealUserMonitor.Host) depth ev d t (w : RealUserMonitor.World),
    monotone_clock h ->
    expired h w ->
    let r := RealUserMonitor.transmitRealUserMonitoringEvent h depth ev d t w in
    fst r = StackOverflow /\
    RealUserMonitor.posts (snd r) = RealUserMonitor.posts w /\
    RealUserMonitor.RealUserMonitoringSessionId (RealUserMonitor.this (snd r))
    = RealUserMonitor.RealUserMonitoringSessionId (RealUserMonitor.this w).
Proof.
  intros h depth ev d t w Hclock Hw r.
  destruct (proj1 (expired_overflows h Hclock depth) ev d t w Hw) as [k Hk].
  subst r. rewrite Hk. repeat split.
Qed.

Lemma idle_transmit_never_rotates_witness :
  monotone_clock Sample.later_host /\
  expired Sample.later_host Sample.fresh /\
  (let r :=
     RealUserMonitor.transmitRealUserMonitoringEvent Sample.later_host 100
       RealUserMonitor.EventTiming
       (RealUserMonitor.Timing "Home" RealUserMonitor.ViewLoaded (of_Z 250))
       None Sample.fresh in
   fst r = StackOverflow /\
   RealUserMonitor.posts (snd r) = RealUserMonitor.posts Sample.fresh /\
   RealUserMonitor.RealUserMonitoringSessionId (RealUserMonitor.this (snd r))
   = RealUserMonitor.RealUserMonitoringSessionId
       (RealUserMonitor.this Sample.fresh)).
Proof.
  assert (Hclock : monotone_clock Sample.later_host)
    by (intros n; cbn; unfold Sample.clock_from; lia).
  assert (Hidle : expired Sample.later_host Sample.fresh)
    by (unfold expired; vm_compute; reflexivity).
  split; [exact Hclock|]. split; [exact Hidle|].
  apply (idle_transmit_never_rotates Sample.later_host 100
           RealUserMonitor.EventTiming
           (RealUserMonitor.Timing "Home" RealUserMonitor.ViewLoaded (of_Z 250))
           None Sample.fresh Hclock Hidle).
Defined.

(** A rotation asked for while the session is not idle-expired does
    run: SessionEnd under the old id, then SessionStart under the new. *)
Example rotate_fresh_session :
  let r := RealUserMonitor.rotateRUMSession Sample.host 2 Sample.fresh in
  fst r = Normal /\
  map (fun p => (RealUserMonitor.type (RealUserMonitor.eventData p),
                 RealUserMonitor.sessionId (RealUserMonitor.eventData p)))
      (RealUserMonitor.posts (snd r))
  = [(RealUserMonitor.SessionStart, "guid-0"%string);
     (RealUserMonitor.SessionEnd, "guid-0"%string);
     (RealUserMonitor.SessionStart, "guid-1"%string)].
Proof. split; vm_compute; reflexivity. Qed.

(** The earlier variant refreshes [lastActiveAt] before it sends, so
    its rotation of an idle session does emit SessionEnd under the old
    id and SessionStart under the new one, in that order. *)
Lemma legacy_rotate_emits_end_then_start :
  forall (h : LegacyMonitor.Host) (w : LegacyMonitor.World),
    LegacyMonitor.Date_now h (LegacyMonitor.clockReads w)
    - LegacyMonitor.lastActiveAt (LegacyMonitor.this w)
    > LegacyMonitor.SessionRotateThreshold ->
    let w' := LegacyMonitor.rotateRUMSession h w in
    exists pEnd pStart,
      LegacyMonitor.posts w' = LegacyMonitor.posts w ++ [pEnd; pStart] /\
      LegacyMonitor.type (LegacyMonitor.eventData pEnd) = LegacyMonitor.SessionEnd /\
      LegacyMonitor.sessionId (LegacyMonitor.eventData pEnd)
      = LegacyMonitor.curRUMSessionId (LegacyMonitor.this w) /\
      LegacyMonitor.type (LegacyMonitor.eventData pStart) = LegacyMonitor.SessionStart /\
      LegacyMonitor.sessionId (LegacyMonitor.eventData pStart)
      = LegacyMonitor.getDeviceBasedId h (LegacyMonitor.idCalls w) /\
      LegacyMonitor.curRUMSessionId (LegacyMonitor.this w')
      = LegacyMonitor.getDeviceBasedId h (LegacyMonitor.idCalls w).
Proof.
  intros h w Hidle w'. subst w'.
  unfold LegacyMonitor.rotateRUMSession. cbn [LegacyMonitor.now].
  assert (Hgt : (LegacyMonitor.Date_now h (LegacyMonitor.clockReads w)
                 - LegacyMonitor.lastActiveAt
                     (LegacyMonitor.this (LegacyMonitor.tick w))
                 >? LegacyMonitor.SessionRotateThreshold) = true)
    by (apply Z.gtb_lt; cbn; lia).
  rewrite Hgt. unfold LegacyMonitor.sendRUMEvent. cbn.
  repeat match goal with
         | |- context [LegacyMonitor.fetch_resolves h ?n] =>
             destruct (LegacyMonitor.fetch_resolves h n); cbn
         end;
    eexists _, _; rewrite <- app_assoc; cbn;
    repeat split; reflexivity.
Qed.

(** ** Transmission in a session that is not idle-expired *)

Section FreshSession.

Import RealUserMonitor.

Variable h : Host.

Lemma transmit_fresh depth ev d t w :
  ~ expired h w ->
  transmitRealUserMonitoringEvent h (S depth) ev d t w
  = (Normal, send h ev d t (markSessionInteraction h (tick w))).
Proof.
  intros Hw. cbn [transmitRealUserMonitoringEvent now].
  assert (Hle : (Date_now h (clockReads w)
                 - lastSessionInteractionTime (this (tick w))
                 >? SessionRotateThreshold) = false).
  { unfold expired in Hw. cbn. destruct (Z.gtb_spec
      (Date_now h (clockReads w) - lastSessionInteractionTime (this w))
      SessionRotateThreshold); [lia | reflexivity]. }
  rewrite Hle. reflexivity.
Qed.

(** [send] issues exactly one POST, carrying the event name and data
    it was given under the current session id. *)
Lemma posts_send ev d t w :
  exists p,
    posts (send h ev d t w) = posts w ++ [p] /\
    type (eventData p) = ev /\
    data (eventData p) = d /\
    sessionId (eventData p) = RealUserMonitoringSessionId (this w) /\
    timestamp (eventData p)
    = (if truthy_opt t then match t with Some x => x | None => NaN end
       else of_Z (Date_now h (clockReads w))).
Proof.
  unfold send, generateRealUserMonitorPayload.
  destruct (truthy_opt t); cbn;
    match goal with |- context [fetch_resolves h ?n] =>
      destruct (fetch_resolves h n) end;
    eexists; repeat split; reflexivity.
Qed.

Lemma sendNetworkTimingEvent_pending depth nm st dur w :
  pending (sendNetworkTimingEvent h depth nm st dur w) = pending w.
Proof. apply pending_transmit_rotate. Qed.

Lemma handleResponse_pending depth status timeout resp respUrl respType xhr w :
  pending (handleResponse h depth status timeout resp respUrl respType xhr w)
  = pending w.
Proof.
  unfold handleResponse.
  destruct (lookup_request xhr w); [|reflexivity].
  cbn [now]. rewrite sendNetworkTimingEvent_pending. reflexivity.
Qed.

(** A response for a pending request, in a session that is not
    idle-expired, issues exactly one POST: the NetworkCall timing
    event of that request. *)
Lemma handleResponse_posts depth status timeout resp respUrl respType xhr w meta :
  lookup_request xhr w = Some meta ->
  ~ expired h (tick w) ->
  exists p,
    posts (handleResponse h (S depth) status timeout resp respUrl respType xhr w)
    = posts w ++ [p] /\
    is_timing p NetworkCall (name meta)
      (sub_opt (of_Z (Date_now h (clockReads w))) (sendTime meta)) /\
    timestamp (eventData p)
    = (if truthy_opt (sendTime meta)
       then match sendTime meta with Some x => x | None => NaN end
       else of_Z (Date_now h (S (S (S (clockReads w)))))).
Proof.
  intros Hmeta Hw. unfold handleResponse. rewrite Hmeta. cbn [now].
  unfold sendNetworkTimingEvent. rewrite (transmit_fresh _ _ _ _ _ Hw).
  cbn [snd].
  destruct (posts_send EventTiming
              (Timing (name meta) NetworkCall
                 (sub_opt (of_Z (Date_now h (clockReads w))) (sendTime meta)))
              (sendTime meta) (markSessionInteraction h (tick (tick w))))
    as (p & Hp & Hty & Hd & _ & Hts).
  exists p. split; [exact Hp|]. split; [split; assumption|]. exact Hts.
Qed.

End FreshSession.

(** ** Network activity correlator *)






(** C3 (counterexample).  With the device identifier as correlation id,
    two requests opened one after the other get the same id, and the
    second open replaces the RequestMeta of the first while the first is
    still pending. *)
Lemma handleRequestOpen_overwrites_counterexample :
  let r1 :=
    RealUserMonitor.handleRequestOpen Sample.host "GET" "https://example.com/a"
                                      (RealUserMonitor.mkXhr None) Sample.fresh in
  let r2 :=
    RealUserMonitor.handleRequestOpen Sample.host "POST" "https://example.com/b"
                                      (RealUserMonitor.mkXhr None) (snd r1) in
  RealUserMonitor._id_ (fst r1) = Some "device-1"%string /\
  RealUserMonitor._id_ (fst r2) = Some "device-1"%string /\
  RealUserMonitor.requests (RealUserMonitor.this (snd r1)) !! "device-1"%string
  = Some (RealUserMonitor.mkMeta "GET https://example.com/a" None) /\
  RealUserMonitor.requests (RealUserMonitor.this (snd r2)) !! "device-1"%string
  = Some (RealUserMonitor.mkMeta "POST https://example.com/b" None).
Proof.
  repeat split; vm_compute; reflexivity.
Qed.

(** C3 (as amended).  Every non-ignored [handleRequestOpen] puts the id
    returned by [getDeviceId()] on the call context and stores the
    RequestMeta under it without checking whether that id is pending:
    the entries under all other ids are unchanged, and whatever was
    stored under the returned id is replaced. *)
Theorem handleRequestOpen_stores_under_device_id :
  forall (h : RealUserMonitor.Host) method url xhr (w : RealUserMonitor.World),
    RealUserMonitor.shouldIgnoreURL h url
      (RealUserMonitor.ignoredURLs (RealUserMonitor.this w)) = false ->
    let id := RealUserMonitor.getDeviceId h (RealUserMonitor.idCalls w) in
    let meta := RealUserMonitor.mkMeta (method ++ " " ++ url) None in
    let r := RealUserMonitor.handleRequestOpen h method url xhr w in
    RealUserMonitor._id_ (fst r) = Some id /\
    RealUserMonitor.requests (RealUserMonitor.this (snd r))
    = <[id := meta]> (RealUserMonitor.requests (RealUserMonitor.this w)) /\
    RealUserMonitor.requests (RealUserMonitor.this (snd r)) !! id = Some meta /\
    (forall j, j <> id ->
       RealUserMonitor.requests (RealUserMonitor.this (snd r)) !! j
       = RealUserMonitor.requests (RealUserMonitor.this w) !! j).
Proof.
  intros h method url xhr w Hurl id meta r. subst r.
  unfold RealUserMonitor.handleRequestOpen. rewrite Hurl. cbn.
  fold id. fold meta.
  repeat split.
  - apply lookup_insert_eq.
  - intros j Hj. apply lookup_insert_ne. congruence.
Qed.

Lemma handleRequestOpen_stores_under_device_id_witness :
  let meta := RealUserMonitor.mkMeta "POST https://example.com/b" None in
  let r :=
    RealUserMonitor.handleRequestOpen Sample.host "POST" "https://example.com/b"
                                      (RealUserMonitor.mkXhr None) Sample.sent in
  RealUserMonitor._id_ (fst r) = Some "device-1"%string /\
  RealUserMonitor.requests (RealUserMonitor.this (snd r))
  = <["device-1"%string := meta]>
      (RealUserMonitor.requests (RealUserMonitor.this Sample.sent)) /\
  RealUserMonitor.requests (RealUserMonitor.this (snd r)) !! "device-1"%string
  = Some meta /\
  (forall j, j <> "device-1"%string ->
     RealUserMonitor.requests (RealUserMonitor.this (snd r)) !! j
     = RealUserMonitor.requests (RealUserMonitor.this Sample.sent) !! j).
Proof.
  apply (handleRequestOpen_stores_under_device_id Sample.host "POST"
           "https://example.com/b" (RealUserMonitor.mkXhr None) Sample.sent).
  vm_compute. reflexivity.
Defined.

(** ** View timing correlator *)

Section ViewFacts.

Import RealUserMonitor.

Variable h : Host.

Lemma loadingViews_of_pending w w' :
  pending w' = pending w -> loadingViews (this w') = loadingViews (this w).
Proof. intros H. exact (f_equal (fun x => snd (fst (fst x))) H). Qed.

Lemma pending_sendViewLoadedEvent depth nm dur w :
  pending (snd (sendViewLoadedEvent h depth nm dur w)) = pending w.
Proof.
  unfold sendViewLoadedEvent.
  destruct (shouldIgnoreView h nm (ignoredViews (this w))); [reflexivity|].
  apply pending_transmit_rotate.
Qed.


(** With a falsy start time on record, [viewFinishesLoading] only
    logs, twice. *)
Lemma viewFinishesLoading_falsy depth v t t0 w :
  loadingViews (this w) !! v = Some t0 ->
  truthy t0 = false ->
  viewFinishesLoading h depth v t w
  = log (D_UndefinedStartTime v) (log (D_ViewFinishedLoading v) w).
Proof.
  intros Hv Ht0. unfold viewFinishesLoading. cbn. rewrite Hv, Ht0.
  reflexivity.
Qed.

(** No entry point removes or changes a record whose start time is
    falsy. *)
Lemma step_keeps_falsy_start depth c v t0 w :
  loadingViews (this w) !! v = Some t0 ->
  truthy t0 = false ->
  loadingViews (this (step h depth c w)) !! v = Some t0.
Proof.
  intros Hv Ht0.
  destruct c as [| |v' t|v' t|m u x|d x|s tm r ru rt x|e n d|e d t
                 |n t d|n d|];
    cbn [step].
  - exact Hv.
  - rewrite (loadingViews_of_pending _ _
               (proj2 (pending_transmit_rotate h depth) w)). exact Hv.
  - unfold viewBeginsLoading. cbn.
    destruct (loadingViews (this w) !! v') eqn:Hv'; cbn; [exact Hv|].
    rewrite lookup_insert_ne; [exact Hv | congruence].
  - unfold viewFinishesLoading. cbn.
    destruct (loadingViews (this w) !! v') as [start|] eqn:Hv'; [|exact Hv].
    destruct (truthy start) eqn:Hstart; [|exact Hv].
    rewrite (loadingViews_of_pending _ _
               (pending_sendViewLoadedEvent depth _ _ _)). cbn.
    rewrite lookup_delete_ne; [exact Hv | congruence].
  - unfold handleRequestOpen.
    destruct (shouldIgnoreURL h u (ignoredURLs (this w))); exact Hv.
  - unfold handleRequestSend.
    destruct (_id_ x); [|exact Hv].
    destruct (lookup_request x w); exact Hv.
  - rewrite (loadingViews_of_pending _ _
               (handleResponse_pending h depth s tm r ru rt x w)). exact Hv.
  - destruct e; cbn [sendCustomRUMEvent now].
    + rewrite (loadingViews_of_pending _ _
                 (pending_sendViewLoadedEvent depth _ _ _)). exact Hv.
    + rewrite (loadingViews_of_pending _ _
                 (sendNetworkTimingEvent_pending h depth _ _ _ _)). exact Hv.
    + exact Hv.
  - rewrite (loadingViews_of_pending _ _
               (proj1 (pending_transmit_rotate h depth) e d t w)). exact Hv.
  - rewrite (loadingViews_of_pending _ _
               (sendNetworkTimingEvent_pending h depth _ _ _ _)). exact Hv.
  - rewrite (loadingViews_of_pending _ _
               (pending_sendViewLoadedEvent depth _ _ _)). exact Hv.
  - exact Hv.
Qed.

Lemma run_keeps_falsy_start depth cs v t0 w :
  loadingViews (this w) !! v = Some t0 ->
  truthy t0 = false ->
  loadingViews (this (run h depth cs w)) !! v = Some t0.
Proof.
  revert w. induction cs as [|c cs IH]; intros w Hv Ht0; cbn [run].
  - exact Hv.
  - apply IH; [|exact Ht0]. apply step_keeps_falsy_start; assumption.
Qed.

End ViewFacts.

(** C7.  A view name has at most one pending record, the map's entry for
    it: a second [viewBeginsLoading] for a name that is already pending
    leaves the pending-view map, and so the first start time, as they
    were. *)
Theorem viewBeginsLoading_keeps_first_start :
  forall viewname t0 time (w : RealUserMonitor.World),
    RealUserMonitor.loadingViews (RealUserMonitor.this w) !! viewname = Some t0 ->
    let w' := RealUserMonitor.viewBeginsLoading viewname time w in
    RealUserMonitor.loadingViews (RealUserMonitor.this w')
    = RealUserMonitor.loadingViews (RealUserMonitor.this w) /\
    RealUserMonitor.loadingViews (RealUserMonitor.this w') !! viewname = Some t0.
Proof.
  intros viewname t0 time w Hv w'. subst w'.
  unfold RealUserMonitor.viewBeginsLoading. cbn. rewrite Hv.
  split; [reflexivity | exact Hv].
Qed.

Lemma viewBeginsLoading_keeps_first_start_witness :
  let w := RealUserMonitor.viewBeginsLoading "Home" (of_Z 1100) Sample.fresh in
  let w' := RealUserMonitor.viewBeginsLoading "Home" (of_Z 1900) w in
  RealUserMonitor.loadingViews (RealUserMonitor.this w')
  = RealUserMonitor.loadingViews (RealUserMonitor.this w) /\
  RealUserMonitor.loadingViews (RealUserMonitor.this w') !! "Home"%string
  = Some (of_Z 1100).
Proof.
  apply (viewBeginsLoading_keeps_first_start "Home" (of_Z 1100) (of_Z 1900)
           (RealUserMonitor.viewBeginsLoading "Home" (of_Z 1100) Sample.fresh)).
  vm_compute. reflexivity.
Defined.




Example ignored_view_emits_nothing :
  let w1 := RealUserMonitor.viewBeginsLoading "Splash" (of_Z 1100) Sample.fresh in
  let w2 := RealUserMonitor.viewFinishesLoading Sample.host 3 "Splash" (of_Z 1350) w1 in
  RealUserMonitor.posts w2 = RealUserMonitor.posts Sample.fresh /\
  RealUserMonitor.loadingViews (RealUserMonitor.this w2) !! "Splash"%string = None.
Proof. split; vm_compute; reflexivity. Qed.

Example cleanViewName_ios :
  RealUserMonitor.cleanViewName "iOS_View: <Home: 0x7f>" = "Home"%string.
Proof. reflexivity. Qed.

Example cleanViewName_other :
  RealUserMonitor.cleanViewName "MainActivity" = "MainActivity"%string.
Proof. reflexivity. Qed.

Example Math_round_half_up :
  Math_round (sub (Num (2701 # 2)) (of_Z 1100)) = of_Z 251 /\
  Math_round (Num (-5 # 2)) = of_Z (-2).
Proof. split; reflexivity. Qed.

(** C10.  Once [viewBeginsLoading] has recorded the start time 0 for a
    view name, the record stays: after any sequence of calls to the
    monitor's entry points the name is still pending with start time 0,
    and a [viewFinishesLoading] for it emits no event and leaves the
    record in place. *)
Theorem zero_start_time_stays_pending :
  forall (h : RealUserMonitor.Host) depth viewname (w : RealUserMonitor.World),
    RealUserMonitor.loadingViews (RealUserMonitor.this w) !! viewname = None ->
    let w0 := RealUserMonitor.viewBeginsLoading viewname (of_Z 0) w in
    RealUserMonitor.loadingViews (RealUserMonitor.this w0) !! viewname
    = Some (of_Z 0) /\
    forall calls time,
      let w1 := RealUserMonitor.run h depth calls w0 in
      let w2 := RealUserMonitor.viewFinishesLoading h depth viewname time w1 in
      RealUserMonitor.loadingViews (RealUserMonitor.this w1) !! viewname
      = Some (of_Z 0) /\
      RealUserMonitor.posts w2 = RealUserMonitor.posts w1 /\
      RealUserMonitor.loadingViews (RealUserMonitor.this w2) !! viewname
      = Some (of_Z 0).
Proof.
  intros h depth viewname w Hnone w0.
  assert (H0 : RealUserMonitor.loadingViews (RealUserMonitor.this w0) !! viewname
               = Some (of_Z 0)).
  { subst w0. unfold RealUserMonitor.viewBeginsLoading. cbn. rewrite Hnone.
    cbn. apply lookup_insert_eq. }
  split; [exact H0|].
  intros calls time w1 w2.
  assert (H1 : RealUserMonitor.loadingViews (RealUserMonitor.this w1) !! viewname
               = Some (of_Z 0))
    by (apply run_keeps_falsy_start; [exact H0 | reflexivity]).
  split; [exact H1|].
  subst w2.
  rewrite (viewFinishesLoading_falsy h depth viewname time (of_Z 0) w1 H1)
    by reflexivity.
  split; [reflexivity | exact H1].
Qed.

Lemma zero_start_time_stays_pending_witness :
  let w0 := RealUserMonitor.viewBeginsLoading "Home" (of_Z 0) Sample.fresh in
  RealUserMonitor.loadingViews (RealUserMonitor.this w0) !! "Home"%string
  = Some (of_Z 0) /\
  forall calls time,
    let w1 := RealUserMonitor.run Sample.host 3 calls w0 in
    let w2 := RealUserMonitor.viewFinishesLoading Sample.host 3 "Home" time w1 in
    RealUserMonitor.loadingViews (RealUserMonitor.this w1) !! "Home"%string
    = Some (of_Z 0) /\
    RealUserMonitor.posts w2 = RealUserMonitor.posts w1 /\
    RealUserMonitor.loadingViews (RealUserMonitor.this w2) !! "Home"%string
    = Some (of_Z 0).
Proof.
  apply (zero_start_time_stays_pending Sample.host 3 "Home" Sample.fresh).
  vm_compute. reflexivity.
Defined.

Example zero_start_after_calls :
  let w0 := RealUserMonitor.viewBeginsLoading "Home" (of_Z 0) Sample.fresh in
  let w1 :=
    RealUserMonitor.run Sample.host 3
      [RealUserMonitor.OnViewLoaded "Home" (of_Z 250);
       RealUserMonitor.OnViewLoading "Home" (of_Z 300);
       RealUserMonitor.OnViewLoaded "Home" (of_Z 900)] w0 in
  RealUserMonitor.loadingViews (RealUserMonitor.this w1) !! "Home"%string
  = Some (of_Z 0) /\
  RealUserMonitor.posts w1 = RealUserMonitor.posts Sample.fresh.
Proof. split; vm_compute; reflexivity. Qed.

(** ** Unknown timing types *)

(** C8 (the code at the failing input).  For an event type that is
    neither ViewLoaded nor NetworkCall, [sendCustomRUMEvent] of the SDK's
    RealUserMonitor returns with the instance and all effects unchanged:
    nothing is sent, and nothing is logged either.  The earlier variant
    sends nothing and logs the "Unknown RUM event type" warning. *)
Theorem sendCustomRUMEvent_unknown_type :
  (forall (h : RealUserMonitor.Host) depth tag name duration
          (w : RealUserMonitor.World),
      RealUserMonitor.sendCustomRUMEvent h depth
        (RealUserMonitor.OtherTiming tag) name duration w = w) /\
  (forall (h : LegacyMonitor.Host) apiKey eventType name duration endpoint
          (w : LegacyMonitor.World),
      let w' :=
        LegacyMonitor.sendCustomRUMEvent h apiKey eventType name duration
                                         endpoint w in
      match eventType with
      | LegacyMonitor.ViewLoaded | LegacyMonitor.NetworkCall => True
      | _ =>
          LegacyMonitor.posts w' = LegacyMonitor.posts w /\
          LegacyMonitor.logs w'
          = LegacyMonitor.logs w
            ++ [LegacyMonitor.W_UnknownRUMEventType eventType] /\
          LegacyMonitor.this w' = LegacyMonitor.this w
      end).
Proof.
  split.
  - reflexivity.
  - intros h apiKey eventType name duration endpoint w.
    destruct eventType; cbn; auto.
Qed.

Example sendCustomRUMEvent_unknown_type_sdk :
  RealUserMonitor.logs
    (RealUserMonitor.sendCustomRUMEvent Sample.host 3
       (RealUserMonitor.OtherTiming "x") "checkout" (of_Z 10) Sample.fresh)
  = RealUserMonitor.logs Sample.fresh.
Proof. reflexivity. Qed.

Example sendCustomRUMEvent_unknown_type_legacy :
  LegacyMonitor.logs
    (LegacyMonitor.sendCustomRUMEvent Sample.legacy_host "key"
       (LegacyMonitor.OtherEvent "x") "checkout" (of_Z 10) None
       Sample.legacy_world)
  = [LegacyMonitor.W_UnknownRUMEventType (LegacyMonitor.OtherEvent "x")].
Proof. reflexivity. Qed.

(** ** Client session and crash-report payload *)

Section ClientFacts.

Import RaygunClient.

Variable h : Host.

Lemma curSession_clearSession st :
  curSession (snd (clearSession h st))
  = mkSession ["React Native"%string] ∅ []
      (mkUser ("anonymous-" ++ getDeviceBasedId h (idCalls st))
              None None None None None).
Proof.
  unfold clearSession. cbn.
  destruct (GlobalOptions st) as [o|]; [|reflexivity].
  destruct (enableNativeCrashReporting o); reflexivity.
Qed.

End ClientFacts.

(** C4 (counterexample).  After [clearSession()] on a used session the
    tags are not empty: they hold "React Native". *)
Lemma clearSession_tags_counterexample :
  RaygunClient.tags
    (RaygunClient.curSession
       (snd (RaygunClient.clearSession Sample.client_host Sample.client_state)))
  = ["React Native"%string] /\
  RaygunClient.tags
    (RaygunClient.curSession
       (snd (RaygunClient.clearSession Sample.client_host Sample.client_state)))
  <> [].
Proof.
  split; [reflexivity | discriminate].
Qed.

(** C4 (as amended).  For every prior state, after [clearSession()] the
    current session's user identifier starts with "anonymous-", its
    breadcrumbs and custom data are empty, and its tags are exactly the
    one tag "React Native".  This holds as well when the call throws
    because [init] has not run: the session is replaced first. *)
Theorem clearSession_yields_clean_session :
  forall (h : RaygunClient.Host) (st : RaygunClient.State),
    let s := RaygunClient.curSession (snd (RaygunClient.clearSession h st)) in
    String.prefix "anonymous-" (identifier (RaygunClient.user s)) = true /\
    RaygunClient.tags s = ["React Native"%string] /\
    RaygunClient.breadcrumbs s = [] /\
    RaygunClient.customData s = ∅.
Proof.
  intros h st s. subst s. rewrite curSession_clearSession. cbn.
  repeat split.
  destruct (RaygunClient.getDeviceBasedId h (RaygunClient.idCalls st));
    reflexivity.
Qed.



Example crash_payload_frame :
  RaygunClient.convertToCrashReportingStackFrame
    (RaygunClient.mkFrame (Some "a.js"%string) None (Some 5) (Some 2))
  = RaygunClient.mkCRFrame (Some "a.js"%string) "[anonymous]" (Some 5) (Some 2)
                           "line 5, column 2".
Proof. reflexivity. Qed.

Example crash_payload_before_init :
  fst (RaygunClient.generateCrashReportPayload Sample.client_host
         (Some (RaygunClient.mkError None (Some "boom"%string) None))
         (RaygunClient.FrameArray []) Sample.used_session
         (RaygunClient.mkState Sample.used_session None 0 1 []))
  = None.
Proof. reflexivity. Qed.

(** ** Further properties of the SDK's RealUserMonitor *)

Section SendFacts.

Import RealUserMonitor.

Variable h : Host.

Lemma this_send ev d t w : this (send h ev d t w) = this w.
Proof.
  unfold send, generateRealUserMonitorPayload.
  destruct (truthy_opt t); cbn;
    match goal with |- context [fetch_resolves h ?n] =>
      destruct (fetch_resolves h n) end; reflexivity.
Qed.

Lemma clockReads_send ev d t w :
  clockReads (send h ev d t w)
  = if truthy_opt t then clockReads w else S (clockReads w).
Proof.
  unfold send, generateRealUserMonitorPayload.
  destruct (truthy_opt t); cbn;
    match goal with |- context [fetch_resolves h ?n] =>
      destruct (fetch_resolves h n) end; reflexivity.
Qed.

Lemma guidCalls_send ev d t w : guidCalls (send h ev d t w) = guidCalls w.
Proof.
  unfold send, generateRealUserMonitorPayload.
  destruct (truthy_opt t); cbn;
    match goal with |- context [fetch_resolves h ?n] =>
      destruct (fetch_resolves h n) end; reflexivity.
Qed.

(** What one [send] adds: the POST and its log lines. *)
Lemma send_adds_post ev d t w :
  exists p,
    posts (send h ev d t w) = posts w ++ [p] /\
    post_endpoint p = raygunRumEndpoint (this w) /\
    post_apiKey p = apiKey (this w) /\
    type (eventData p) = ev /\
    data (eventData p) = d /\
    sessionId (eventData p) = RealUserMonitoringSessionId (this w) /\
    logs (send h ev d t w)
    = logs w
      ++ D_Transmitting (raygunRumEndpoint (this w)) (apiKey (this w))
                        (eventData p)
         :: (if fetch_resolves h (List.length (posts w)) then []
             else [E_UnableToSend]).
Proof.
  unfold send, generateRealUserMonitorPayload.
  destruct (truthy_opt t); cbn;
    destruct (fetch_resolves h (List.length (posts w))); cbn;
    eexists; repeat split; rewrite <- ?app_assoc; reflexivity.
Qed.

End SendFacts.

(** X1.  In a session that is not idle-expired, a transmission of any
    positive depth completes normally whether or not the POST succeeds,
    issues exactly one POST to the monitor's endpoint with its API key,
    carrying the given event type and data under the current session id,
    logs the message (and the failure, if the POST fails), keeps the
    session id and resets the idle clock to the reading that follows the
    idle check. *)
Theorem transmit_in_live_session :
  forall (h : RealUserMonitor.Host) depth ev d t (w : RealUserMonitor.World),
    ~ expired h w ->
    let r := RealUserMonitor.transmitRealUserMonitoringEvent h (S depth) ev d t w in
    fst r = Normal /\
    (exists p,
        RealUserMonitor.posts (snd r) = RealUserMonitor.posts w ++ [p] /\
        RealUserMonitor.post_endpoint p
        = RealUserMonitor.raygunRumEndpoint (RealUserMonitor.this w) /\
        RealUserMonitor.post_apiKey p
        = RealUserMonitor.apiKey (RealUserMonitor.this w) /\
        RealUserMonitor.type (RealUserMonitor.eventData p) = ev /\
        RealUserMonitor.data (RealUserMonitor.eventData p) = d /\
        RealUserMonitor.sessionId (RealUserMonitor.eventData p)
        = RealUserMonitor.RealUserMonitoringSessionId (RealUserMonitor.this w) /\
        RealUserMonitor.logs (snd r)
        = RealUserMonitor.logs w
          ++ RealUserMonitor.D_Transmitting
               (RealUserMonitor.raygunRumEndpoint (RealUserMonitor.this w))
               (RealUserMonitor.apiKey (RealUserMonitor.this w))
               (RealUserMonitor.eventData p)
             :: (if RealUserMonitor.fetch_resolves h
                      (List.length (RealUserMonitor.posts w))
                 then [] else [RealUserMonitor.E_UnableToSend])) /\
    RealUserMonitor.RealUserMonitoringSessionId (RealUserMonitor.this (snd r))
    = RealUserMonitor.RealUserMonitoringSessionId (RealUserMonitor.this w) /\
    RealUserMonitor.lastSessionInteractionTime (RealUserMonitor.this (snd r))
    = RealUserMonitor.Date_now h (S (RealUserMonitor.clockReads w)).
Proof.
  intros h depth ev d t w Hw r. subst r.
  rewrite (transmit_fresh h depth ev d t w Hw). cbn [fst snd].
  split; [reflexivity|]. split.
  - destruct (send_adds_post h ev d t
                (RealUserMonitor.markSessionInteraction h (RealUserMonitor.tick w)))
      as (p & Hp & He & Ha & Ht & Hd & Hs & Hl).
    exists p. repeat split; assumption.
  - rewrite this_send. cbn. split; reflexivity.
Qed.

Lemma transmit_in_live_session_witness :
  let r :=
    RealUserMonitor.transmitRealUserMonitoringEvent Sample.host 1
      RealUserMonitor.EventTiming
      (RealUserMonitor.Timing "Home" RealUserMonitor.ViewLoaded (of_Z 250))
      None Sample.fresh in
  fst r = Normal /\
  (exists p,
      RealUserMonitor.posts (snd r) = RealUserMonitor.posts Sample.fresh ++ [p] /\
      RealUserMonitor.post_endpoint p
      = RealUserMonitor.raygunRumEndpoint (RealUserMonitor.this Sample.fresh) /\
      RealUserMonitor.post_apiKey p
      = RealUserMonitor.apiKey (RealUserMonitor.this Sample.fresh) /\
      RealUserMonitor.type (RealUserMonitor.eventData p)
      = RealUserMonitor.EventTiming /\
      RealUserMonitor.data (RealUserMonitor.eventData p)
      = RealUserMonitor.Timing "Home" RealUserMonitor.ViewLoaded (of_Z 250) /\
      RealUserMonitor.sessionId (RealUserMonitor.eventData p)
      = RealUserMonitor.RealUserMonitoringSessionId
          (RealUserMonitor.this Sample.fresh) /\
      RealUserMonitor.logs (snd r)
      = RealUserMonitor.logs Sample.fresh
        ++ RealUserMonitor.D_Transmitting
             (RealUserMonitor.raygunRumEndpoint (RealUserMonitor.this Sample.fresh))
             (RealUserMonitor.apiKey (RealUserMonitor.this Sample.fresh))
             (RealUserMonitor.eventData p)
           :: (if RealUserMonitor.fetch_resolves Sample.host
                    (List.length (RealUserMonitor.posts Sample.fresh))
               then [] else [RealUserMonitor.E_UnableToSend])) /\
  RealUserMonitor.RealUserMonitoringSessionId (RealUserMonitor.this (snd r))
  = RealUserMonitor.RealUserMonitoringSessionId (RealUserMonitor.this Sample.fresh) /\
  RealUserMonitor.lastSessionInteractionTime (RealUserMonitor.this (snd r))
  = RealUserMonitor.Date_now Sample.host
      (S (RealUserMonitor.clockReads Sample.fresh)).
Proof.
  apply (transmit_in_live_session Sample.host 0 RealUserMonitor.EventTiming
           (RealUserMonitor.Timing "Home" RealUserMonitor.ViewLoaded (of_Z 250))
           None Sample.fresh).
  unfold expired. vm_compute. congruence.
Defined.

(** X2.  [rotateRUMSession] on a session that is not idle-expired, with
    no half-hour gap between the clock readings around the new idle
    mark, completes normally and issues exactly two POSTs: SessionEnd
    under the old session id, then SessionStart under the id that
    [getRandomGUID(32)] returned, which is the session id afterwards. *)
Theorem rotate_live_session :
  forall (h : RealUserMonitor.Host) depth (w : RealUserMonitor.World),
    ~ expired h w ->
    RealUserMonitor.Date_now h (4 + RealUserMonitor.clockReads w)
    - RealUserMonitor.Date_now h (3 + RealUserMonitor.clockReads w)
    <= RealUserMonitor.SessionRotateThreshold ->
    let r := RealUserMonitor.rotateRUMSession h (S (S depth)) w in
    let newId := RealUserMonitor.getRandomGUID h 32 (RealUserMonitor.guidCalls w) in
    fst r = Normal /\
    RealUserMonitor.RealUserMonitoringSessionId (RealUserMonitor.this (snd r))
    = newId /\
    exists pEnd pStart,
      RealUserMonitor.posts (snd r) = RealUserMonitor.posts w ++ [pEnd; pStart] /\
      RealUserMonitor.type (RealUserMonitor.eventData pEnd)
      = RealUserMonitor.SessionEnd /\
      RealUserMonitor.sessionId (RealUserMonitor.eventData pEnd)
      = RealUserMonitor.RealUserMonitoringSessionId (RealUserMonitor.this w) /\
      RealUserMonitor.type (RealUserMonitor.eventData pStart)
      = RealUserMonitor.SessionStart /\
      RealUserMonitor.sessionId (RealUserMonitor.eventData pStart) = newId.
Proof.
  intros h depth w Hw Hgap r newId. subst r.
  cbn [RealUserMonitor.rotateRUMSession].
  rewrite (transmit_fresh h depth _ _ _ w Hw).
  remember (RealUserMonitor.send h RealUserMonitor.SessionEnd
              RealUserMonitor.NoData None
              (RealUserMonitor.markSessionInteraction h (RealUserMonitor.tick w)))
    as w1 eqn:Hw1.
  assert (Hreads : RealUserMonitor.clockReads w1
                   = (3 + RealUserMonitor.clockReads w)%nat)
    by (subst w1; rewrite clockReads_send; reflexivity).
  assert (Hguid : RealUserMonitor.guidCalls w1 = RealUserMonitor.guidCalls w)
    by (subst w1; rewrite guidCalls_send; reflexivity).
  assert (Hold : RealUserMonitor.this w1
                 = RealUserMonitor.this
                     (RealUserMonitor.markSessionInteraction h
                        (RealUserMonitor.tick w)))
    by (subst w1; apply this_send).
  destruct (send_adds_post h RealUserMonitor.SessionEnd RealUserMonitor.NoData None
              (RealUserMonitor.markSessionInteraction h (RealUserMonitor.tick w)))
    as (pEnd & Hp1 & _ & _ & Ht1 & _ & Hs1 & _).
  rewrite <- Hw1 in Hp1. cbn in Hp1, Hs1.
  remember (RealUserMonitor.markSessionInteraction h
              (RealUserMonitor.generateNewSessionId h w1)) as w2 eqn:Hw2.
  assert (Hlive : ~ expired h w2).
  { unfold expired. subst w2. cbn. rewrite Hreads. cbn in Hgap |- *. lia. }
  assert (Hid : RealUserMonitor.RealUserMonitoringSessionId
                  (RealUserMonitor.this w2) = newId).
  { subst w2 newId. cbn. rewrite Hguid. reflexivity. }
  assert (Hposts2 : RealUserMonitor.posts w2 = RealUserMonitor.posts w1)
    by (subst w2; reflexivity).
  rewrite (transmit_fresh h depth _ _ _ w2 Hlive). cbn [fst snd].
  split; [reflexivity|]. split.
  { rewrite this_send. exact Hid. }
  destruct (send_adds_post h RealUserMonitor.SessionStart RealUserMonitor.NoData
              None (RealUserMonitor.markSessionInteraction h
                      (RealUserMonitor.tick w2)))
    as (pStart & Hp2 & _ & _ & Ht2 & _ & Hs2 & _).
  change (RealUserMonitor.posts
            (RealUserMonitor.markSessionInteraction h (RealUserMonitor.tick w2)))
    with (RealUserMonitor.posts w2) in Hp2.
  change (RealUserMonitor.RealUserMonitoringSessionId
            (RealUserMonitor.this
               (RealUserMonitor.markSessionInteraction h
                  (RealUserMonitor.tick w2))))
    with (RealUserMonitor.RealUserMonitoringSessionId (RealUserMonitor.this w2))
    in Hs2.
  exists pEnd, pStart.
  split.
  { rewrite Hp2, Hposts2, Hp1, <- app_assoc. reflexivity. }
  repeat split; try assumption.
  rewrite Hs2. exact Hid.
Qed.

Lemma rotate_live_session_witness :
  let r := RealUserMonitor.rotateRUMSession Sample.host 2 Sample.fresh in
  let newId :=
    RealUserMonitor.getRandomGUID Sample.host 32
      (RealUserMonitor.guidCalls Sample.fresh) in
  fst r = Normal /\
  RealUserMonitor.RealUserMonitoringSessionId (RealUserMonitor.this (snd r))
  = newId /\
  exists pEnd pStart,
    RealUserMonitor.posts (snd r)
    = RealUserMonitor.posts Sample.fresh ++ [pEnd; pStart] /\
    RealUserMonitor.type (RealUserMonitor.eventData pEnd)
    = RealUserMonitor.SessionEnd /\
    RealUserMonitor.sessionId (RealUserMonitor.eventData pEnd)
    = RealUserMonitor.RealUserMonitoringSessionId
        (RealUserMonitor.this Sample.fresh) /\
    RealUserMonitor.type (RealUserMonitor.eventData pStart)
    = RealUserMonitor.SessionStart /\
    RealUserMonitor.sessionId (RealUserMonitor.eventData pStart) = newId.
Proof.
  apply (rotate_live_session Sample.host 0 Sample.fresh).
  - unfold expired. vm_compute. congruence.
  - vm_compute. congruence.
Defined.

(** X3.  [rotateRUMSession] itself, called while the session is
    idle-expired (the resume listener after more than 30 minutes in the
    background), ends in the overflow for every nesting depth: nothing
    is sent and the session id stays. *)
Theorem rotate_idle_session_overflows :
  forall (h : RealUserMonitor.Host) depth (w : RealUserMonitor.World),
    monotone_clock h ->
    expired h w ->
    let r := RealUserMonitor.rotateRUMSession h depth w in
    fst r = StackOverflow /\
    RealUserMonitor.posts (snd r) = RealUserMonitor.posts w /\
    RealUserMonitor.this (snd r) = RealUserMonitor.this w.
Proof.
  intros h depth w Hclock Hw r.
  destruct (proj2 (expired_overflows h Hclock depth) w Hw) as [k Hk].
  subst r. rewrite Hk. repeat split.
Qed.

Lemma rotate_idle_session_overflows_witness :
  let r := RealUserMonitor.rotateRUMSession Sample.later_host 50 Sample.fresh in
  fst r = StackOverflow /\
  RealUserMonitor.posts (snd r) = RealUserMonitor.posts Sample.fresh /\
  RealUserMonitor.this (snd r) = RealUserMonitor.this Sample.fresh.
Proof.
  apply (rotate_idle_session_overflows Sample.later_host 50 Sample.fresh).
  - intros n. cbn. unfold Sample.clock_from. lia.
  - unfold expired. vm_compute. reflexivity.
Defined.

(** X4.  Constructing a monitor, with no half-hour gap between the
    second and third clock readings, issues exactly one POST, the
    SessionStart of the generated session id.  The instance starts with
    no pending request and no pending view; its URL ignore list is the
    caller's list, then the two defaults, then the custom endpoint if
    one is given, and its endpoint is the custom one if given and the
    default otherwise. *)
Theorem construct_starts_session :
  forall (h : RealUserMonitor.Host) depth apiKey disable urls views endpoint
         version usr tgs,
    RealUserMonitor.Date_now h 2 - RealUserMonitor.Date_now h 1
    <= RealUserMonitor.SessionRotateThreshold ->
    let w :=
      RealUserMonitor.construct h (S depth) apiKey disable urls views endpoint
                                version usr tgs in
    let m := RealUserMonitor.this w in
    (exists p,
        RealUserMonitor.posts w = [p] /\
        RealUserMonitor.type (RealUserMonitor.eventData p)
        = RealUserMonitor.SessionStart /\
        RealUserMonitor.sessionId (RealUserMonitor.eventData p)
        = RealUserMonitor.getRandomGUID h 32 0 /\
        RealUserMonitor.post_apiKey p = apiKey) /\
    RealUserMonitor.RealUserMonitoringSessionId m
    = RealUserMonitor.getRandomGUID h 32 0 /\
    RealUserMonitor.requests m = ∅ /\
    RealUserMonitor.loadingViews m = ∅ /\
    RealUserMonitor.ignoredViews m = views /\
    RealUserMonitor.ignoredURLs m
    = urls ++ ["api.raygun.com"; "localhost:8081"]%string
      ++ (if String.eqb endpoint "" then [] else [endpoint]) /\
    RealUserMonitor.raygunRumEndpoint m
    = (if String.eqb endpoint "" then "https://api.raygun.com/events"%string
       else endpoint).
Proof.
  intros h depth apiKey disable urls views endpoint version usr tgs Hgap w m.
  subst m w. unfold RealUserMonitor.construct.
  match goal with
  | |- context [RealUserMonitor.transmitRealUserMonitoringEvent h (S depth)
                  ?ev ?d ?t ?w0] =>
      assert (Hlive : ~ expired h w0) by (unfold expired; cbn; lia);
      rewrite (transmit_fresh h depth ev d t w0 Hlive);
      destruct (send_adds_post h ev d t
                  (RealUserMonitor.markSessionInteraction h
                     (RealUserMonitor.tick w0)))
        as (p & Hp & _ & Ha & Ht & _ & Hs & _)
  end.
  cbn [snd]. rewrite this_send. cbn.
  split.
  { exists p. cbn in Hp, Ha, Hs. repeat split; assumption. }
  rewrite app_nil_r. repeat split.
Qed.

Lemma construct_starts_session_witness :
  let w :=
    RealUserMonitor.construct Sample.host 1 "key" false ["example.org"%string]
                              ["Splash"%string] "https://rum.example.org"
                              "1.0" Sample.anonymous [] in
  let m := RealUserMonitor.this w in
  (exists p,
      RealUserMonitor.posts w = [p] /\
      RealUserMonitor.type (RealUserMonitor.eventData p)
      = RealUserMonitor.SessionStart /\
      RealUserMonitor.sessionId (RealUserMonitor.eventData p)
      = RealUserMonitor.getRandomGUID Sample.host 32 0 /\
      RealUserMonitor.post_apiKey p = "key"%string) /\
  RealUserMonitor.RealUserMonitoringSessionId m
  = RealUserMonitor.getRandomGUID Sample.host 32 0 /\
  RealUserMonitor.requests m = ∅ /\
  RealUserMonitor.loadingViews m = ∅ /\
  RealUserMonitor.ignoredViews m = ["Splash"%string] /\
  RealUserMonitor.ignoredURLs m
  = ["example.org"%string] ++ ["api.raygun.com"; "localhost:8081"]%string
    ++ (if String.eqb "https://rum.example.org" "" then []
        else ["https://rum.example.org"%string]) /\
  RealUserMonitor.raygunRumEndpoint m
  = (if String.eqb "https://rum.example.org" ""
     then "https://api.raygun.com/events"%string
     else "https://rum.example.org"%string).
Proof.
  apply (construct_starts_session Sample.host 0 "key" false
           ["example.org"%string] ["Splash"%string] "https://rum.example.org"
           "1.0" Sample.anonymous []).
  vm_compute. congruence.
Defined.

(** X5.  [sendCustomRUMEvent(NetworkCall, name, duration)] in a session
    that is not idle-expired emits exactly one event: the NetworkCall
    timing of that name and duration.  Its timestamp is
    [Date.now() - duration]; when that difference is 0 or NaN it is the
    time of transmission instead. *)
Theorem custom_network_event :
  forall (h : RealUserMonitor.Host) depth name duration
         (w : RealUserMonitor.World),
    ~ expired h (RealUserMonitor.tick w) ->
    let w' :=
      RealUserMonitor.sendCustomRUMEvent h (S depth) RealUserMonitor.NetworkCall
                                         name duration w in
    let n := RealUserMonitor.clockReads w in
    let start := sub (of_Z (RealUserMonitor.Date_now h n)) duration in
    exists p,
      RealUserMonitor.posts w' = RealUserMonitor.posts w ++ [p] /\
      is_timing p RealUserMonitor.NetworkCall name duration /\
      RealUserMonitor.timestamp (RealUserMonitor.eventData p)
      = (if truthy start then start
         else of_Z (RealUserMonitor.Date_now h (3 + n))).
Proof.
  intros h depth name duration w Hw w' n start. subst w'.
  cbn [RealUserMonitor.sendCustomRUMEvent RealUserMonitor.now].
  unfold RealUserMonitor.sendNetworkTimingEvent.
  rewrite (transmit_fresh h depth _ _ _ _ Hw). cbn [snd].
  destruct (posts_send h RealUserMonitor.EventTiming
              (RealUserMonitor.Timing name RealUserMonitor.NetworkCall duration)
              (Some start)
              (RealUserMonitor.markSessionInteraction h
                 (RealUserMonitor.tick (RealUserMonitor.tick w))))
    as (p & Hp & Hty & Hd & _ & Hts).
  exists p. split; [exact Hp|]. split; [split; assumption|]. exact Hts.
Qed.

Lemma custom_network_event_witness :
  let w' :=
    RealUserMonitor.sendCustomRUMEvent Sample.host 1 RealUserMonitor.NetworkCall
                                       "GET /cart" (of_Z 120) Sample.fresh in
  let n := RealUserMonitor.clockReads Sample.fresh in
  let start := sub (of_Z (RealUserMonitor.Date_now Sample.host n)) (of_Z 120) in
  exists p,
    RealUserMonitor.posts w' = RealUserMonitor.posts Sample.fresh ++ [p] /\
    is_timing p RealUserMonitor.NetworkCall "GET /cart" (of_Z 120) /\
    RealUserMonitor.timestamp (RealUserMonitor.eventData p)
    = (if truthy start then start
       else of_Z (RealUserMonitor.Date_now Sample.host (3 + n))).
Proof.
  apply (custom_network_event Sample.host 0 "GET /cart" (of_Z 120) Sample.fresh).
  unfold expired. vm_compute. congruence.
Defined.

(** X6.  [sendCustomRUMEvent(ViewLoaded, name, duration)] sends nothing
    and changes nothing when the name is on the view ignore list.
    Otherwise, in a session that is not idle-expired, it emits exactly
    one ViewLoaded timing event with the name as given (it is not
    cleaned) and the given duration. *)
Theorem custom_view_event :
  forall (h : RealUserMonitor.Host) depth name duration
         (w : RealUserMonitor.World),
    ~ expired h w ->
    let w' :=
      RealUserMonitor.sendCustomRUMEvent h (S depth) RealUserMonitor.ViewLoaded
                                         name duration w in
    if RealUserMonitor.shouldIgnoreView h name
         (RealUserMonitor.ignoredViews (RealUserMonitor.this w))
    then w' = w
    else exists p,
        RealUserMonitor.posts w' = RealUserMonitor.posts w ++ [p] /\
        is_timing p RealUserMonitor.ViewLoaded name duration.
Proof.
  intros h depth name duration w Hw w'. subst w'.
  cbn [RealUserMonitor.sendCustomRUMEvent].
  unfold RealUserMonitor.sendViewLoadedEvent.
  destruct (RealUserMonitor.shouldIgnoreView h name
              (RealUserMonitor.ignoredViews (RealUserMonitor.this w)));
    [reflexivity|].
  rewrite (transmit_fresh h depth _ _ _ _ Hw). cbn [snd].
  destruct (posts_send h RealUserMonitor.EventTiming
              (RealUserMonitor.Timing name RealUserMonitor.ViewLoaded duration)
              None
              (RealUserMonitor.markSessionInteraction h (RealUserMonitor.tick w)))
    as (p & Hp & Hty & Hd & _).
  exists p. split; [exact Hp | split; assumption].
Qed.

Lemma custom_view_event_witness :
  (let w' :=
     RealUserMonitor.sendCustomRUMEvent Sample.host 1 RealUserMonitor.ViewLoaded
                                        "Splash" (of_Z 80) Sample.fresh in
   w' = Sample.fresh) /\
  (let w' :=
     RealUserMonitor.sendCustomRUMEvent Sample.host 1 RealUserMonitor.ViewLoaded
                                        "iOS_View: <Home: 0x7f>" (of_Z 80)
                                        Sample.fresh in
   exists p,
     RealUserMonitor.posts w' = RealUserMonitor.posts Sample.fresh ++ [p] /\
     is_timing p RealUserMonitor.ViewLoaded "iOS_View: <Home: 0x7f>" (of_Z 80)).
Proof.
  assert (Hlive : ~ expired Sample.host Sample.fresh)
    by (unfold expired; vm_compute; congruence).
  split.
  - exact (custom_view_event Sample.host 0 "Splash" (of_Z 80) Sample.fresh Hlive).
  - exact (custom_view_event Sample.host 0 "iOS_View: <Home: 0x7f>" (of_Z 80)
             Sample.fresh Hlive).
Defined.

(** X7.  The round trip of one request whose URL is not ignored: open,
    then send, then the response, in a session that is not idle-expired
    at the response.  It emits exactly one event, the NetworkCall timing
    named "<method> <url>", whose duration is the clock reading at the
    response minus the reading at the send, and which is timestamped at
    the send time (when that reading is not 0). *)
Theorem request_round_trip :
  forall (h : RealUserMonitor.Host) depth method url body status timeout
         resp respUrl respType xhr (w : RealUserMonitor.World),
    RealUserMonitor.shouldIgnoreURL h url
      (RealUserMonitor.ignoredURLs (RealUserMonitor.this w)) = false ->
    let n := RealUserMonitor.clockReads w in
    RealUserMonitor.Date_now h (2 + n)
    - RealUserMonitor.lastSessionInteractionTime (RealUserMonitor.this w)
    <= RealUserMonitor.SessionRotateThreshold ->
    RealUserMonitor.Date_now h n <> 0 ->
    let opened := RealUserMonitor.handleRequestOpen h method url xhr w in
    let w1 := RealUserMonitor.handleRequestSend h body (fst opened) (snd opened) in
    let w2 :=
      RealUserMonitor.handleResponse h (S depth) status timeout resp respUrl
                                     respType (fst opened) w1 in
    exists p,
      RealUserMonitor.posts w2 = RealUserMonitor.posts w ++ [p] /\
      is_timing p RealUserMonitor.NetworkCall (method ++ " " ++ url)
        (sub (of_Z (RealUserMonitor.Date_now h (1 + n)))
             (of_Z (RealUserMonitor.Date_now h n))) /\
      RealUserMonitor.timestamp (RealUserMonitor.eventData p)
      = of_Z (RealUserMonitor.Date_now h n).
Proof.
  intros h depth method url body status timeout resp respUrl respType xhr w
         Hurl n Hlive Hnz.
  cbv zeta. unfold RealUserMonitor.handleRequestOpen. rewrite Hurl.
  cbn [fst snd].
  set (id := RealUserMonitor.getDeviceId h (RealUserMonitor.idCalls w)).
  match goal with
  | |- context [RealUserMonitor.handleRequestSend h body ?x ?w0] =>
      set (w1 := RealUserMonitor.handleRequestSend h body x w0)
  end.
  match goal with
  | |- context [RealUserMonitor.handleResponse h (S depth) status timeout resp
                  respUrl respType ?x w1] =>
      set (w2 := RealUserMonitor.handleResponse h (S depth) status timeout resp
                   respUrl respType x w1)
  end.
  assert (Hw1 : RealUserMonitor.lookup_request (RealUserMonitor.mkXhr (Some id)) w1
                = Some (RealUserMonitor.mkMeta (method ++ " " ++ url)
                          (Some (of_Z (RealUserMonitor.Date_now h n))))).
  { subst w1. unfold RealUserMonitor.handleRequestSend,
      RealUserMonitor.lookup_request. cbn.
    rewrite lookup_insert_eq. cbn. rewrite lookup_insert_eq. reflexivity. }
  assert (Hreads : RealUserMonitor.clockReads w1 = S n).
  { subst w1. unfold RealUserMonitor.handleRequestSend,
      RealUserMonitor.lookup_request. cbn.
    rewrite lookup_insert_eq. reflexivity. }
  assert (Hlast : RealUserMonitor.lastSessionInteractionTime
                    (RealUserMonitor.this w1)
                  = RealUserMonitor.lastSessionInteractionTime
                      (RealUserMonitor.this w)).
  { subst w1. unfold RealUserMonitor.handleRequestSend,
      RealUserMonitor.lookup_request. cbn.
    rewrite lookup_insert_eq. reflexivity. }
  assert (Hposts : RealUserMonitor.posts w1 = RealUserMonitor.posts w).
  { subst w1. unfold RealUserMonitor.handleRequestSend,
      RealUserMonitor.lookup_request. cbn.
    rewrite lookup_insert_eq. reflexivity. }
  clearbody w1.
  assert (Hw1live : ~ expired h (RealUserMonitor.tick w1)).
  { unfold expired. cbn. rewrite Hreads, Hlast. cbn in Hlive. lia. }
  destruct (handleResponse_posts h depth status timeout resp respUrl respType
              (RealUserMonitor.mkXhr (Some id)) w1 _ Hw1 Hw1live)
    as (p & Hp & Ht & Hts).
  exists p. fold w2 in Hp. rewrite Hp, Hposts. split; [reflexivity|].
  cbn [RealUserMonitor.name RealUserMonitor.sendTime sub_opt] in Ht, Hts.
  rewrite Hreads in Ht. split; [exact Ht|].
  assert (Htruthy : truthy_opt (Some (of_Z (RealUserMonitor.Date_now h n))) = true).
  { cbn. destruct (Qeq_bool (inject_Z (RealUserMonitor.Date_now h n)) 0) eqn:Hq;
      [|reflexivity].
    apply Qeq_bool_iff in Hq. unfold Qeq in Hq. cbn in Hq. lia. }
  rewrite Htruthy in Hts. exact Hts.
Qed.

Lemma request_round_trip_witness :
  let w := Sample.fresh in
  let n := RealUserMonitor.clockReads w in
  let opened :=
    RealUserMonitor.handleRequestOpen Sample.host "GET" "https://example.com/a"
                                      (RealUserMonitor.mkXhr None) w in
  let w1 := RealUserMonitor.handleRequestSend Sample.host "" (fst opened)
                                              (snd opened) in
  let w2 :=
    RealUserMonitor.handleResponse Sample.host 1 200 0 "" "" "" (fst opened) w1 in
  exists p,
    RealUserMonitor.posts w2 = RealUserMonitor.posts w ++ [p] /\
    is_timing p RealUserMonitor.NetworkCall ("GET" ++ " " ++ "https://example.com/a")
      (sub (of_Z (RealUserMonitor.Date_now Sample.host (1 + n)))
           (of_Z (RealUserMonitor.Date_now Sample.host n))) /\
    RealUserMonitor.timestamp (RealUserMonitor.eventData p)
    = of_Z (RealUserMonitor.Date_now Sample.host n).
Proof.
  apply (request_round_trip Sample.host 0 "GET" "https://example.com/a" ""
           200 0 "" "" "" (RealUserMonitor.mkXhr None) Sample.fresh).
  - vm_compute. reflexivity.
  - vm_compute. congruence.
  - vm_compute. congruence.
Defined.

Lemma requests_of_pending (w w' : RealUserMonitor.World) :
  pending w' = pending w ->
  RealUserMonitor.requests (RealUserMonitor.this w')
  = RealUserMonitor.requests (RealUserMonitor.this w).
Proof. intros H. exact (f_equal (fun x => fst (fst (fst x))) H). Qed.

(** X8.  A request whose URL is on the ignore list leaves no trace: on
    a call context that carries no id, [handleRequestOpen] assigns none
    and stores nothing, and the send and the response that follow change
    nothing and emit nothing. *)
Theorem ignored_request_leaves_no_trace :
  forall (h : RealUserMonitor.Host) depth method url body status timeout
         resp respUrl respType xhr (w : RealUserMonitor.World),
    RealUserMonitor.shouldIgnoreURL h url
      (RealUserMonitor.ignoredURLs (RealUserMonitor.this w)) = true ->
    RealUserMonitor._id_ xhr = None ->
    let opened := RealUserMonitor.handleRequestOpen h method url xhr w in
    let w1 := RealUserMonitor.handleRequestSend h body (fst opened) (snd opened) in
    let w2 :=
      RealUserMonitor.handleResponse h depth status timeout resp respUrl
                                     respType (fst opened) w1 in
    RealUserMonitor._id_ (fst opened) = None /\
    snd opened = w /\ w1 = w /\ w2 = w.
Proof.
  intros h depth method url body status timeout resp respUrl respType xhr w
         Hurl Hid.
  cbv zeta. unfold RealUserMonitor.handleRequestOpen. rewrite Hurl.
  cbn [fst snd].
  unfold RealUserMonitor.handleRequestSend, RealUserMonitor.handleResponse,
    RealUserMonitor.lookup_request.
  rewrite Hid. repeat split; assumption.
Qed.

Lemma ignored_request_leaves_no_trace_witness :
  let xhr := RealUserMonitor.mkXhr None in
  let opened :=
    RealUserMonitor.handleRequestOpen Sample.host "POST" "api.raygun.com" xhr
                                      Sample.fresh in
  let w1 := RealUserMonitor.handleRequestSend Sample.host "{}" (fst opened)
                                              (snd opened) in
  let w2 :=
    RealUserMonitor.handleResponse Sample.host 3 202 0 "" "" "" (fst opened) w1 in
  RealUserMonitor._id_ (fst opened) = None /\
  snd opened = Sample.fresh /\ w1 = Sample.fresh /\ w2 = Sample.fresh.
Proof.
  apply (ignored_request_leaves_no_trace Sample.host 3 "POST" "api.raygun.com"
           "{}" 202 0 "" "" "" (RealUserMonitor.mkXhr None) Sample.fresh).
  - vm_compute. reflexivity.
  - reflexivity.
Defined.

(** X9.  When a pending view with a truthy start time finishes loading
    and its cleaned name is on the view ignore list, its record is
    removed all the same, nothing is sent, and the idle clock is not
    reset. *)
Theorem ignored_view_is_forgotten :
  forall (h : RealUserMonitor.Host) depth viewname t0 time
         (w : RealUserMonitor.World),
    RealUserMonitor.loadingViews (RealUserMonitor.this w) !! viewname = Some t0 ->
    truthy t0 = true ->
    RealUserMonitor.shouldIgnoreView h (RealUserMonitor.cleanViewName viewname)
      (RealUserMonitor.ignoredViews (RealUserMonitor.this w)) = true ->
    let w' := RealUserMonitor.viewFinishesLoading h depth viewname time w in
    RealUserMonitor.posts w' = RealUserMonitor.posts w /\
    RealUserMonitor.loadingViews (RealUserMonitor.this w')
    = delete viewname (RealUserMonitor.loadingViews (RealUserMonitor.this w)) /\
    RealUserMonitor.lastSessionInteractionTime (RealUserMonitor.this w')
    = RealUserMonitor.lastSessionInteractionTime (RealUserMonitor.this w) /\
    RealUserMonitor.logs w'
    = RealUserMonitor.logs w ++ [RealUserMonitor.D_ViewFinishedLoading viewname].
Proof.
  intros h depth viewname t0 time w Hv Ht0 Hign w'. subst w'.
  unfold RealUserMonitor.viewFinishesLoading. cbn. rewrite Hv, Ht0.
  unfold RealUserMonitor.sendViewLoadedEvent. cbn. rewrite Hign.
  repeat split.
Qed.

Lemma ignored_view_is_forgotten_witness :
  let w := RealUserMonitor.viewBeginsLoading "Splash" (of_Z 1100) Sample.fresh in
  let w' := RealUserMonitor.viewFinishesLoading Sample.host 3 "Splash" (of_Z 1350) w in
  RealUserMonitor.posts w' = RealUserMonitor.posts w /\
  RealUserMonitor.loadingViews (RealUserMonitor.this w')
  = delete "Splash"%string (RealUserMonitor.loadingViews (RealUserMonitor.this w)) /\
  RealUserMonitor.lastSessionInteractionTime (RealUserMonitor.this w')
  = RealUserMonitor.lastSessionInteractionTime (RealUserMonitor.this w) /\
  RealUserMonitor.logs w'
  = RealUserMonitor.logs w ++ [RealUserMonitor.D_ViewFinishedLoading "Splash"].
Proof.
  apply (ignored_view_is_forgotten Sample.host 3 "Splash" (of_Z 1100) (of_Z 1350)
           (RealUserMonitor.viewBeginsLoading "Splash" (of_Z 1100) Sample.fresh)).
  - vm_compute. reflexivity.
  - vm_compute. reflexivity.
  - vm_compute. reflexivity.
Defined.

(** X10.  View loads are tracked per name: a [viewBeginsLoading] or a
    [viewFinishesLoading] for one name leaves the pending record (or its
    absence) of every other name as it was, and neither touches the
    pending requests. *)
Theorem views_do_not_interfere :
  forall (h : RealUserMonitor.Host) depth other viewname time
         (w : RealUserMonitor.World),
    other <> viewname ->
    let begun := RealUserMonitor.viewBeginsLoading viewname time w in
    let finished := RealUserMonitor.viewFinishesLoading h depth viewname time w in
    RealUserMonitor.loadingViews (RealUserMonitor.this begun) !! other
    = RealUserMonitor.loadingViews (RealUserMonitor.this w) !! other /\
    RealUserMonitor.loadingViews (RealUserMonitor.this finished) !! other
    = RealUserMonitor.loadingViews (RealUserMonitor.this w) !! other /\
    RealUserMonitor.requests (RealUserMonitor.this begun)
    = RealUserMonitor.requests (RealUserMonitor.this w) /\
    RealUserMonitor.requests (RealUserMonitor.this finished)
    = RealUserMonitor.requests (RealUserMonitor.this w).
Proof.
  intros h depth other viewname time w Hne begun finished.
  subst begun finished.
  unfold RealUserMonitor.viewBeginsLoading, RealUserMonitor.viewFinishesLoading.
  cbn.
  destruct (RealUserMonitor.loadingViews (RealUserMonitor.this w) !! viewname)
    as [start|] eqn:Hv; cbn.
  - split; [reflexivity|].
    destruct (truthy start); cbn.
    + pose proof (pending_sendViewLoadedEvent h depth
                    (RealUserMonitor.cleanViewName viewname)
                    (Math_round (sub time start))
                    (RealUserMonitor.with_this
                       (RealUserMonitor.set_loadingViews
                          (delete viewname
                             (RealUserMonitor.loadingViews (RealUserMonitor.this w))))
                       (RealUserMonitor.log
                          (RealUserMonitor.D_ViewFinishedLoading viewname) w)))
        as Hp.
      rewrite (loadingViews_of_pending _ _ Hp).
      rewrite (requests_of_pending _ _ Hp). cbn.
      rewrite lookup_delete_ne by congruence. repeat split.
    + repeat split.
  - rewrite lookup_insert_ne by congruence. repeat split.
Qed.

Lemma views_do_not_interfere_witness :
  let w := RealUserMonitor.viewBeginsLoading "Home" (of_Z 1100) Sample.fresh in
  let begun := RealUserMonitor.viewBeginsLoading "Cart" (of_Z 1200) w in
  let finished :=
    RealUserMonitor.viewFinishesLoading Sample.host 3 "Cart" (of_Z 1200) w in
  RealUserMonitor.loadingViews (RealUserMonitor.this begun) !! "Home"%string
  = RealUserMonitor.loadingViews (RealUserMonitor.this w) !! "Home"%string /\
  RealUserMonitor.loadingViews (RealUserMonitor.this finished) !! "Home"%string
  = RealUserMonitor.loadingViews (RealUserMonitor.this w) !! "Home"%string /\
  RealUserMonitor.requests (RealUserMonitor.this begun)
  = RealUserMonitor.requests (RealUserMonitor.this w) /\
  RealUserMonitor.requests (RealUserMonitor.this finished)
  = RealUserMonitor.requests (RealUserMonitor.this w).
Proof.
  apply (views_do_not_interfere Sample.host 3 "Home"%string "Cart"%string
           (of_Z 1200)
           (RealUserMonitor.viewBeginsLoading "Home" (of_Z 1100) Sample.fresh)).
  discriminate.
Defined.

(** X11.  Sending never touches the correlators: at any depth and in
    any state, idle-expired or not, a transmission, a rotation, a custom
    RUM event and a response leave the pending-request map, the
    pending-view map and the two ignore lists exactly as they were. *)
Theorem sending_leaves_correlators :
  forall (h : RealUserMonitor.Host) depth (w : RealUserMonitor.World),
    (forall ev d t,
        pending (snd (RealUserMonitor.transmitRealUserMonitoringEvent
                        h depth ev d t w)) = pending w) /\
    pending (snd (RealUserMonitor.rotateRUMSession h depth w)) = pending w /\
    (forall eventType name duration,
        pending (RealUserMonitor.sendCustomRUMEvent h depth eventType name
                                                    duration w) = pending w) /\
    (forall status timeout resp respUrl respType xhr,
        pending (RealUserMonitor.handleResponse h depth status timeout resp
                                                respUrl respType xhr w)
        = pending w).
Proof.
  intros h depth w. split; [|split; [|split]].
  - intros ev d t. apply pending_transmit_rotate.
  - apply pending_transmit_rotate.
  - intros [| |tag] name duration;
      cbn [RealUserMonitor.sendCustomRUMEvent RealUserMonitor.now].
    + apply pending_sendViewLoadedEvent.
    + rewrite sendNetworkTimingEvent_pending. reflexivity.
    + reflexivity.
  - intros. apply handleResponse_pending.
Qed.

(** ** View-name cleaning *)

Import Stdlib.Strings.Ascii.

Section StringFacts.

Lemma substring_whole s : String.substring 0 (String.length s) s = s.
Proof. induction s as [|a s IH]; cbn; [reflexivity | now rewrite IH]. Qed.

Lemma prefix_char_head c a s :
  String.prefix (String c "") (String a s) = Ascii.eqb a c.
Proof.
  cbn. destruct (Ascii.ascii_dec c a) as [->|Hne].
  - rewrite Ascii.eqb_refl. destruct s; reflexivity.
  - symmetry. apply Ascii.eqb_neq. congruence.
Qed.

Lemma index_char_head c s : String.index 0 (String c "") (String c s) = Some 0%nat.
Proof.
  cbn [String.index]. rewrite prefix_char_head, Ascii.eqb_refl. reflexivity.
Qed.

Lemma index_char_skip c a s :
  Ascii.eqb a c = false ->
  String.index 0 (String c "") (String a s)
  = match String.index 0 (String c "") s with
    | Some n => Some (S n)
    | None => None
    end.
Proof.
  intros Hne. cbn [String.index]. rewrite prefix_char_head, Hne. reflexivity.
Qed.

Lemma remove_first_head c s : remove_first (String c "") (String c s) = s.
Proof.
  unfold remove_first. rewrite index_char_head. cbn.
  rewrite Nat.sub_0_r. apply substring_whole.
Qed.

Lemma remove_first_skip c a s :
  Ascii.eqb a c = false ->
  remove_first (String c "") (String a s)
  = String a (remove_first (String c "") s).
Proof.
  intros Hne. unfold remove_first. rewrite (index_char_skip c a s Hne).
  destruct (String.index 0 (String c "") s) as [n|]; reflexivity.
Qed.

Lemma remove_first_absent c s :
  has_char c s = false -> remove_first (String c "") s = s.
Proof.
  induction s as [|a s IH]; cbn [has_char]; [reflexivity|].
  destruct (Ascii.eqb a c) eqn:Hac; [discriminate|]. intros Hs.
  rewrite (remove_first_skip c a s Hac), (IH Hs). reflexivity.
Qed.

Lemma append_cons a (s1 s2 : string) :
  (String a s1 ++ s2)%string = String a (s1 ++ s2).
Proof. reflexivity. Qed.

Lemma append_nil (s : string) : (s ++ "")%string = s.
Proof.
  induction s as [|a s IH]; [reflexivity|]. now rewrite append_cons, IH.
Qed.

Lemma remove_first_app c name rest :
  has_char c name = false ->
  remove_first (String c "") (name ++ rest)
  = (name ++ remove_first (String c "") rest)%string.
Proof.
  induction name as [|a name IH]; cbn [has_char]; [reflexivity|].
  destruct (Ascii.eqb a c) eqn:Hac; [discriminate|]. intros Hs.
  rewrite !append_cons, (remove_first_skip c a _ Hac), (IH Hs). reflexivity.
Qed.

Lemma before_first_skip c a s :
  Ascii.eqb a c = false ->
  before_first (String c "") (String a s)
  = String a (before_first (String c "") s).
Proof.
  intros Hne. unfold before_first. rewrite (index_char_skip c a s Hne).
  destruct (String.index 0 (String c "") s) as [n|]; reflexivity.
Qed.

Lemma before_first_app c name tail :
  has_char c name = false ->
  before_first (String c "") (name ++ String c tail) = name.
Proof.
  induction name as [|a name IH]; cbn [has_char].
  - intros _. change ("" ++ String c tail)%string with (String c tail).
    unfold before_first. rewrite index_char_head. reflexivity.
  - destruct (Ascii.eqb a c) eqn:Hac; [discriminate|]. intros Hs.
    rewrite append_cons, (before_first_skip c a _ Hac), (IH Hs). reflexivity.
Qed.

Lemma before_first_absent c s :
  has_char c s = false -> before_first (String c "") s = s.
Proof.
  induction s as [|a s IH]; cbn [has_char]; [reflexivity|].
  destruct (Ascii.eqb a c) eqn:Hac; [discriminate|]. intros Hs.
  rewrite (before_first_skip c a s Hac), (IH Hs). reflexivity.
Qed.

Lemma remove_ios_prefix s :
  remove_first "iOS_View: " ("iOS_View: " ++ s) = s.
Proof.
  unfold remove_first. cbv [String.append].
  destruct s as [|a s]; cbn; [reflexivity|].
  rewrite substring_whole. reflexivity.
Qed.

End StringFacts.

(** X12.  [cleanViewName] recovers the class name from the names the iOS
    side reports: for a name free of '<', '>' and ':',
    "iOS_View: <name:...>" is cleaned to the name whatever follows the
    colon, and "iOS_View: <name>" is cleaned to the name as well. *)
Theorem cleanViewName_ios_class_name :
  forall name tail,
    has_char "<"%char name = false ->
    has_char ">"%char name = false ->
    has_char ":"%char name = false ->
    RealUserMonitor.cleanViewName ("iOS_View: <" ++ name ++ ":" ++ tail) = name /\
    RealUserMonitor.cleanViewName ("iOS_View: <" ++ name ++ ">") = name.
Proof.
  intros name tail Hlt Hgt Hcolon.
  unfold RealUserMonitor.cleanViewName.
  split.
  - change ("iOS_View: <" ++ name ++ ":" ++ tail)%string
      with ("iOS_View: " ++ String "<"%char (name ++ String ":"%char tail))%string.
    replace (String.prefix "iOS_View: "
               ("iOS_View: " ++ String "<"%char (name ++ String ":"%char tail)))
      with true by reflexivity.
    rewrite remove_ios_prefix, remove_first_head.
    rewrite (remove_first_app ">"%char name _ Hgt).
    destruct (remove_first ">" (String ":"%char tail)) as [|a rest] eqn:Hrest.
    + rewrite remove_first_skip in Hrest by reflexivity. discriminate.
    + rewrite remove_first_skip in Hrest by reflexivity.
      injection Hrest as <- _.
      apply (before_first_app ":"%char name rest Hcolon).
  - change ("iOS_View: <" ++ name ++ ">")%string
      with ("iOS_View: " ++ String "<"%char (name ++ String ">"%char ""))%string.
    replace (String.prefix "iOS_View: "
               ("iOS_View: " ++ String "<"%char (name ++ String ">"%char "")))
      with true by reflexivity.
    rewrite remove_ios_prefix, remove_first_head.
    rewrite (remove_first_app ">"%char name _ Hgt), remove_first_head.
    rewrite append_nil. apply (before_first_absent ":"%char name Hcolon).
Qed.

Lemma cleanViewName_ios_class_name_witness :
  RealUserMonitor.cleanViewName
    ("iOS_View: <" ++ "CartViewController" ++ ":" ++ " 0x7fb1>; frame = <0:0>")
  = "CartViewController"%string /\
  RealUserMonitor.cleanViewName ("iOS_View: <" ++ "CartViewController" ++ ">")
  = "CartViewController"%string.
Proof.
  apply (cleanViewName_ios_class_name "CartViewController"
           " 0x7fb1>; frame = <0:0>"); reflexivity.
Defined.

(** ** Further properties of the earlier RealUserMonitor variant *)

Section LegacyFacts.

Import LegacyMonitor.

Variable h : Host.

(** [sendRUMEvent] issues exactly one POST and writes no field of the
    monitor. *)
Lemma legacy_sendRUMEvent ev d t w :
  this (sendRUMEvent h ev d t w) = this w /\
  idCalls (sendRUMEvent h ev d t w) = idCalls w /\
  exists p,
    posts (sendRUMEvent h ev d t w) = posts w ++ [p] /\
    type (eventData p) = ev /\
    data (eventData p) = d /\
    sessionId (eventData p) = curRUMSessionId (this w) /\
    X_ApiKey p = apiKey (this w) /\
    post_url p
    = (if String.eqb (customRealUserMonitoringEndpoint (this w)) ""
       then RAYGUN_RUM_ENDPOINT (this w)
       else customRealUserMonitoringEndpoint (this w)).
Proof.
  unfold sendRUMEvent.
  destruct (truthy_opt t); cbn;
    match goal with |- context [fetch_resolves h ?n] =>
      destruct (fetch_resolves h n) end; cbn;
    (split; [reflexivity|]; split; [reflexivity|]);
    eexists; repeat split; reflexivity.
Qed.

Lemma legacy_rotate_unfold w :
  rotateRUMSession h w
  = if Date_now h (clockReads w) - lastActiveAt (this w) >? SessionRotateThreshold
    then
      let w1 :=
        sendRUMEvent h SessionEnd NoData None
          (set_lastActiveAt (Date_now h (S (clockReads w))) (tick (tick w))) in
      sendRUMEvent h SessionStart NoData None
        (set_curRUMSessionId (getDeviceBasedId h (idCalls w1)) (bump_id w1))
    else tick w.
Proof. reflexivity. Qed.

End LegacyFacts.

(** X13.  The earlier variant's [rotateRUMSession] rotates exactly when
    more than 30 minutes have passed since [lastActiveAt]: then it
    refreshes [lastActiveAt], sends SessionEnd under the old id and
    SessionStart under the id taken from [getDeviceBasedId()], which
    becomes the session id; otherwise it sends nothing and changes no
    field. *)
Theorem legacy_rotation :
  forall (h : LegacyMonitor.Host) (w : LegacyMonitor.World),
    let w' := LegacyMonitor.rotateRUMSession h w in
    let n := LegacyMonitor.clockReads w in
    if LegacyMonitor.Date_now h n - LegacyMonitor.lastActiveAt (LegacyMonitor.this w)
       >? LegacyMonitor.SessionRotateThreshold
    then
      LegacyMonitor.lastActiveAt (LegacyMonitor.this w')
      = LegacyMonitor.Date_now h (S n) /\
      exists pEnd pStart,
        LegacyMonitor.posts w' = LegacyMonitor.posts w ++ [pEnd; pStart] /\
        LegacyMonitor.type (LegacyMonitor.eventData pEnd)
        = LegacyMonitor.SessionEnd /\
        LegacyMonitor.sessionId (LegacyMonitor.eventData pEnd)
        = LegacyMonitor.curRUMSessionId (LegacyMonitor.this w) /\
        LegacyMonitor.type (LegacyMonitor.eventData pStart)
        = LegacyMonitor.SessionStart /\
        LegacyMonitor.sessionId (LegacyMonitor.eventData pStart)
        = LegacyMonitor.getDeviceBasedId h (LegacyMonitor.idCalls w) /\
        LegacyMonitor.curRUMSessionId (LegacyMonitor.this w')
        = LegacyMonitor.getDeviceBasedId h (LegacyMonitor.idCalls w)
    else
      LegacyMonitor.posts w' = LegacyMonitor.posts w /\
      LegacyMonitor.this w' = LegacyMonitor.this w.
Proof.
  intros h w w' n. subst w'. rewrite legacy_rotate_unfold. fold n.
  destruct (LegacyMonitor.Date_now h n
            - LegacyMonitor.lastActiveAt (LegacyMonitor.this w)
            >? LegacyMonitor.SessionRotateThreshold) eqn:Hgt.
  - split.
    + cbv zeta.
      rewrite (proj1 (legacy_sendRUMEvent h _ _ _ _)).
      unfold LegacyMonitor.set_curRUMSessionId.
      cbn [LegacyMonitor.this LegacyMonitor.lastActiveAt LegacyMonitor.bump_id].
      rewrite (proj1 (legacy_sendRUMEvent h _ _ _ _)). reflexivity.
    + pose proof (legacy_rotate_emits_end_then_start h w) as Hrot.
      rewrite legacy_rotate_unfold in Hrot. fold n in Hrot.
      rewrite Hgt in Hrot. apply Hrot.
      apply Z.gtb_lt in Hgt. subst n. lia.
  - split; reflexivity.
Qed.

(** X14.  The earlier variant's [reportStartupTime] starts the session
    on first use: with no session id yet it takes one from
    [getDeviceBasedId()] and sends SessionStart and then the ViewLoaded
    timing, both under that id; with a session id it sends only the
    ViewLoaded timing, under the current id. *)
Theorem legacy_reportStartupTime :
  forall (h : LegacyMonitor.Host) name duration (w : LegacyMonitor.World),
    let w' := LegacyMonitor.reportStartupTime h name duration w in
    let view := LegacyMonitor.Timing name LegacyMonitor.ViewLoaded duration in
    if String.eqb (LegacyMonitor.curRUMSessionId (LegacyMonitor.this w)) ""
    then
      let id := LegacyMonitor.getDeviceBasedId h (LegacyMonitor.idCalls w) in
      LegacyMonitor.curRUMSessionId (LegacyMonitor.this w') = id /\
      exists pStart pView,
        LegacyMonitor.posts w' = LegacyMonitor.posts w ++ [pStart; pView] /\
        LegacyMonitor.type (LegacyMonitor.eventData pStart)
        = LegacyMonitor.SessionStart /\
        LegacyMonitor.sessionId (LegacyMonitor.eventData pStart) = id /\
        LegacyMonitor.type (LegacyMonitor.eventData pView)
        = LegacyMonitor.EventTiming /\
        LegacyMonitor.data (LegacyMonitor.eventData pView) = view /\
        LegacyMonitor.sessionId (LegacyMonitor.eventData pView) = id
    else
      LegacyMonitor.this w' = LegacyMonitor.this w /\
      exists pView,
        LegacyMonitor.posts w' = LegacyMonitor.posts w ++ [pView] /\
        LegacyMonitor.type (LegacyMonitor.eventData pView)
        = LegacyMonitor.EventTiming /\
        LegacyMonitor.data (LegacyMonitor.eventData pView) = view /\
        LegacyMonitor.sessionId (LegacyMonitor.eventData pView)
        = LegacyMonitor.curRUMSessionId (LegacyMonitor.this w).
Proof.
  intros h name duration w w' view0. subst w' view0.
  set (view := LegacyMonitor.Timing name LegacyMonitor.ViewLoaded duration).
  unfold LegacyMonitor.reportStartupTime. fold view.
  destruct (String.eqb (LegacyMonitor.curRUMSessionId (LegacyMonitor.this w)) "").
  - cbv zeta.
    set (w0 := LegacyMonitor.set_curRUMSessionId
                 (LegacyMonitor.getDeviceBasedId h (LegacyMonitor.idCalls w))
                 (LegacyMonitor.bump_id w)).
    destruct (legacy_sendRUMEvent h LegacyMonitor.SessionStart
                LegacyMonitor.NoData None w0)
      as (Hthis1 & _ & p1 & Hp1 & Ht1 & _ & Hs1 & _).
    destruct (legacy_sendRUMEvent h LegacyMonitor.EventTiming view None
                (LegacyMonitor.sendRUMEvent h LegacyMonitor.SessionStart
                   LegacyMonitor.NoData None w0))
      as (Hthis2 & _ & p2 & Hp2 & Ht2 & Hd2 & Hs2 & _).
    split.
    + rewrite Hthis2, Hthis1. reflexivity.
    + exists p1, p2. rewrite Hp2, Hp1, <- app_assoc.
      rewrite Hthis1 in Hs2. repeat split; assumption.
  - destruct (legacy_sendRUMEvent h LegacyMonitor.EventTiming view None w)
      as (Hthis & _ & p & Hp & Ht & Hd & Hs & _).
    split; [exact Hthis|]. exists p. repeat split; assumption.
Qed.

(** X15.  The earlier variant never rotates while sending: its
    [sendCustomRUMEvent] for a NetworkCall sends exactly one event
    however long the monitor has been idle, and changes no field.  The
    event goes to the monitor's custom endpoint if it has one and to the
    default otherwise, with the monitor's own API key: the [apiKey] and
    endpoint arguments of the call are not used. *)
Theorem legacy_network_event :
  forall (h : LegacyMonitor.Host) apiKeyArg name duration endpointArg
         (w : LegacyMonitor.World),
    let w' :=
      LegacyMonitor.sendCustomRUMEvent h apiKeyArg LegacyMonitor.NetworkCall
                                       name duration endpointArg w in
    LegacyMonitor.this w' = LegacyMonitor.this w /\
    exists p,
      LegacyMonitor.posts w' = LegacyMonitor.posts w ++ [p] /\
      LegacyMonitor.type (LegacyMonitor.eventData p) = LegacyMonitor.EventTiming /\
      LegacyMonitor.data (LegacyMonitor.eventData p)
      = LegacyMonitor.Timing name LegacyMonitor.NetworkCall duration /\
      LegacyMonitor.sessionId (LegacyMonitor.eventData p)
      = LegacyMonitor.curRUMSessionId (LegacyMonitor.this w) /\
      LegacyMonitor.X_ApiKey p = LegacyMonitor.apiKey (LegacyMonitor.this w) /\
      LegacyMonitor.post_url p
      = (if String.eqb
              (LegacyMonitor.customRealUserMonitoringEndpoint (LegacyMonitor.this w))
              ""
         then LegacyMonitor.RAYGUN_RUM_ENDPOINT (LegacyMonitor.this w)
         else LegacyMonitor.customRealUserMonitoringEndpoint (LegacyMonitor.this w)).
Proof.
  intros h apiKeyArg name duration endpointArg w w'. subst w'.
  cbn [LegacyMonitor.sendCustomRUMEvent LegacyMonitor.now].
  unfold LegacyMonitor.sendNetworkTimingEventCallback.
  destruct (legacy_sendRUMEvent h LegacyMonitor.EventTiming
              (LegacyMonitor.Timing name LegacyMonitor.NetworkCall duration)
              (Some (sub (of_Z (LegacyMonitor.Date_now h
                                  (LegacyMonitor.clockReads w))) duration))
              (LegacyMonitor.tick w))
    as (Hthis & _ & p & Hp & Ht & Hd & Hs & Hk & Hu).
  split; [exact Hthis|]. exists p. repeat split; assumption.
Qed.

(** ** Further properties of the client session *)

Section TagFacts.

Import RaygunClient.

Lemma Set_add_NoDup x s : NoDup s -> NoDup (Set_add x s).
Proof.
  intros Hs. unfold Set_add. case_bool_decide as Hx; [exact Hs|].
  apply NoDup_app. split; [exact Hs|]. split.
  - intros y Hy Hin. apply list_elem_of_singleton in Hin. congruence.
  - apply NoDup_singleton.
Qed.

Lemma Set_add_elem x y s : y ∈ Set_add x s <-> y ∈ s \/ y = x.
Proof.
  unfold Set_add. case_bool_decide as Hx.
  - split; [auto|]. intros [H| ->]; assumption.
  - rewrite elem_of_app, list_elem_of_singleton. reflexivity.
Qed.

Lemma Set_add_prefix x s : s `prefix_of` Set_add x s.
Proof.
  unfold Set_add. case_bool_decide; [reflexivity|]. apply prefix_app_r.
  reflexivity.
Qed.

Lemma fold_Set_add_NoDup ts s :
  NoDup s -> NoDup (fold_left (fun acc t => Set_add t acc) ts s).
Proof.
  revert s. induction ts as [|t ts IH]; intros s Hs; cbn; [exact Hs|].
  apply IH, Set_add_NoDup, Hs.
Qed.

Lemma fold_Set_add_elem ts y s :
  y ∈ fold_left (fun acc t => Set_add t acc) ts s <-> y ∈ s \/ y ∈ ts.
Proof.
  revert s. induction ts as [|t ts IH]; intros s; cbn.
  - rewrite elem_of_nil. tauto.
  - rewrite IH, Set_add_elem, elem_of_cons. tauto.
Qed.

Lemma fold_Set_add_prefix ts s :
  s `prefix_of` fold_left (fun acc t => Set_add t acc) ts s.
Proof.
  revert s. induction ts as [|t ts IH]; intros s; cbn; [reflexivity|].
  etransitivity; [apply (Set_add_prefix t)|apply IH].
Qed.

Lemma curSession_addTag ts st :
  curSession (snd (addTag ts st))
  = mkSession (fold_left (fun acc t => Set_add t acc) ts (tags (curSession st)))
              (customData (curSession st)) (breadcrumbs (curSession st))
              (user (curSession st)).
Proof.
  unfold addTag. cbn.
  destruct (GlobalOptions st) as [o|]; [|reflexivity].
  destruct (enableNativeCrashReporting o); reflexivity.
Qed.

End TagFacts.

(** X16.  [addTag] treats the tags as a set in insertion order: if the
    session's tags have no repetition, then after [addTag(...tags)] they
    still have none, they consist of the old tags and the given ones,
    and the old tags keep their places at the front.  The rest of the
    session is untouched.  This holds also when the call throws because
    [init] has not run. *)
Theorem addTag_keeps_a_set :
  forall newTags (st : RaygunClient.State),
    NoDup (RaygunClient.tags (RaygunClient.curSession st)) ->
    let s := RaygunClient.curSession st in
    let s' := RaygunClient.curSession (snd (RaygunClient.addTag newTags st)) in
    NoDup (RaygunClient.tags s') /\
    (forall t, t ∈ RaygunClient.tags s' <-> t ∈ RaygunClient.tags s \/ t ∈ newTags) /\
    RaygunClient.tags s `prefix_of` RaygunClient.tags s' /\
    RaygunClient.customData s' = RaygunClient.customData s /\
    RaygunClient.breadcrumbs s' = RaygunClient.breadcrumbs s /\
    RaygunClient.user s' = RaygunClient.user s.
Proof.
  intros newTags st Hnd s s'. subst s s'. rewrite curSession_addTag. cbn.
  split; [apply fold_Set_add_NoDup, Hnd|].
  split; [intros t; apply fold_Set_add_elem|].
  split; [apply fold_Set_add_prefix|].
  repeat split.
Qed.

Lemma addTag_keeps_a_set_witness :
  let s := RaygunClient.curSession Sample.client_state in
  let s' :=
    RaygunClient.curSession
      (snd (RaygunClient.addTag ["x"; "beta"; "beta"]%string Sample.client_state)) in
  NoDup (RaygunClient.tags s') /\
  (forall t, t ∈ RaygunClient.tags s'
             <-> t ∈ RaygunClient.tags s \/ t ∈ ["x"; "beta"; "beta"]%string) /\
  RaygunClient.tags s `prefix_of` RaygunClient.tags s' /\
  RaygunClient.customData s' = RaygunClient.customData s /\
  RaygunClient.breadcrumbs s' = RaygunClient.breadcrumbs s /\
  RaygunClient.user s' = RaygunClient.user s.
Proof.
  apply (addTag_keeps_a_set ["x"; "beta"; "beta"]%string Sample.client_state).
  apply (bool_decide_unpack _). vm_compute. exact I.
Defined.

Example addTag_twice :
  RaygunClient.tags
    (RaygunClient.curSession
       (snd (RaygunClient.addTag ["a"%string]
               (snd (RaygunClient.addTag ["a"%string] Sample.client_state)))))
  = ["React Native"; "x"; "a"]%string.
Proof. reflexivity. Qed.

Section MutatorFacts.

Import RaygunClient ClientOps.

Lemma client_mirror e rt : client (snd (mirror e rt)) = client rt.
Proof.
  unfold mirror. destruct (GlobalOptions (client rt)) as [o|]; [|reflexivity].
  destruct (enableNativeCrashReporting o); reflexivity.
Qed.

(** The mirror call happens exactly when native crash reporting is
    enabled; before [init] the call throws instead. *)
Lemma mirror_outcome e rt :
  mirror e rt
  = match GlobalOptions (client rt) with
    | None => (TypeError, rt)
    | Some o =>
        (Normal, if enableNativeCrashReporting o then emit e rt else rt)
    end.
Proof.
  unfold mirror. destruct (GlobalOptions (client rt)) as [o|]; [|reflexivity].
  destruct (enableNativeCrashReporting o); reflexivity.
Qed.

End MutatorFacts.

(** X17.  [setUser] always leaves a user whose [isAnonymous], [email],
    [firstName] and [fullName] are defined.  The empty identifier gives
    the anonymous user of the device ("anonymous-" and the device-based
    id, flagged anonymous); a non-empty identifier gives that identifier,
    not anonymous, with the other three empty; a user object keeps its
    identifier, its uuid and every property it carries, the absent ones
    getting the defaults (not anonymous, empty strings).  Tags, custom
    data and breadcrumbs are untouched. *)
Theorem setUser_normalises :
  forall (h : RaygunClient.Host) arg (rt : ClientOps.Runtime),
    let s := RaygunClient.curSession (ClientOps.client rt) in
    let s' :=
      RaygunClient.curSession (ClientOps.client (snd (ClientOps.setUser h arg rt))) in
    let u := RaygunClient.user s' in
    (is_Some (isAnonymous u) /\ is_Some (email u) /\
     is_Some (firstName u) /\ is_Some (fullName u)) /\
    match arg with
    | ClientOps.UserId id =>
        if String.eqb id ""
        then
          u = mkUser ("anonymous-"
                      ++ RaygunClient.getDeviceBasedId h
                           (RaygunClient.idCalls (ClientOps.client rt)))
                     (Some true) (Some "") (Some "") (Some "") None
        else u = mkUser id (Some false) (Some "") (Some "") (Some "") None
    | ClientOps.UserObject o =>
        identifier u = identifier o /\ uuid u = uuid o /\
        isAnonymous u = Some (ClientOps.assigned false (isAnonymous o)) /\
        email u = Some (ClientOps.assigned "" (email o)) /\
        firstName u = Some (ClientOps.assigned "" (firstName o)) /\
        fullName u = Some (ClientOps.assigned "" (fullName o))
    end%string /\
    RaygunClient.tags s' = RaygunClient.tags s /\
    RaygunClient.customData s' = RaygunClient.customData s /\
    RaygunClient.breadcrumbs s' = RaygunClient.breadcrumbs s.
Proof.
  intros h arg rt s s' u. subst u s' s.
  unfold ClientOps.setUser.
  destruct arg as [id|o].
  - destruct (String.eqb id ""); rewrite client_mirror; cbn;
      repeat split; eauto.
  - rewrite client_mirror. cbn. repeat split; eauto.
Qed.

(** X18.  [addCustomData] merges shallowly, the new values winning: a
    key of the update reads the update's value afterwards, every other
    key reads what it read before.  Two updates in a row amount to one
    update with their merge, and [updateCustomData] stores exactly what
    the updater returns from the current data.  Tags, breadcrumbs and
    user are untouched.  All of this holds also when the call throws
    because [init] has not run. *)
Theorem addCustomData_merges :
  forall d1 d2 updater (rt : ClientOps.Runtime),
    let data (r : ClientOps.Runtime) :=
      RaygunClient.customData (RaygunClient.curSession (ClientOps.client r)) in
    let rt1 := snd (ClientOps.addCustomData d1 rt) in
    (forall k,
        data rt1 !! k
        = match d1 !! k with
          | Some v => Some v
          | None => data rt !! k
          end) /\
    data (snd (ClientOps.addCustomData d2 rt1))
    = data (snd (ClientOps.addCustomData (d2 ∪ d1) rt)) /\
    data (snd (ClientOps.updateCustomData updater rt)) = updater (data rt) /\
    RaygunClient.tags (RaygunClient.curSession (ClientOps.client rt1))
    = RaygunClient.tags (RaygunClient.curSession (ClientOps.client rt)) /\
    RaygunClient.breadcrumbs (RaygunClient.curSession (ClientOps.client rt1))
    = RaygunClient.breadcrumbs (RaygunClient.curSession (ClientOps.client rt)) /\
    RaygunClient.user (RaygunClient.curSession (ClientOps.client rt1))
    = RaygunClient.user (RaygunClient.curSession (ClientOps.client rt)).
Proof.
  intros d1 d2 updater rt data rt1. subst data rt1.
  unfold ClientOps.addCustomData, ClientOps.updateCustomData.
  rewrite !client_mirror. cbn.
  split; [|split; [|repeat split]].
  - intros k. rewrite lookup_union.
    destruct (d1 !! k), (RaygunClient.customData
                           (RaygunClient.curSession (ClientOps.client rt)) !! k);
      reflexivity.
  - rewrite (assoc_L (∪)). reflexivity.
Qed.

(** X19.  [recordBreadcrumb] appends exactly one breadcrumb and keeps
    the earlier ones in place.  Its timestamp is the current time even
    when the details carry a timestamp; category, level and custom data
    default to '', 'info' and {} and are taken from the details when
    given.  Tags, custom data and user are untouched, and the breadcrumb
    is recorded also when the call throws because [init] has not run. *)
Theorem recordBreadcrumb_appends :
  forall (h : RaygunClient.Host) message details (rt : ClientOps.Runtime),
    let s := RaygunClient.curSession (ClientOps.client rt) in
    let s' :=
      RaygunClient.curSession
        (ClientOps.client (snd (ClientOps.recordBreadcrumb h message details rt))) in
    (exists b,
        RaygunClient.breadcrumbs s' = RaygunClient.breadcrumbs s ++ [b] /\
        RaygunClient.b_timestamp b
        = RaygunClient.Date_now h (RaygunClient.clockReads (ClientOps.client rt)) /\
        match details with
        | None =>
            b = RaygunClient.mkBreadcrumb ∅ "" "info" message
                  (RaygunClient.b_timestamp b)
        | Some d =>
            RaygunClient.category b
            = ClientOps.assigned ""%string (ClientOps.o_category d) /\
            RaygunClient.level b
            = ClientOps.assigned "info"%string (ClientOps.o_level d) /\
            RaygunClient.b_customData b
            = ClientOps.assigned ∅ (ClientOps.o_customData d) /\
            RaygunClient.message b
            = ClientOps.assigned message (ClientOps.o_message d)
        end) /\
    RaygunClient.tags s' = RaygunClient.tags s /\
    RaygunClient.customData s' = RaygunClient.customData s /\
    RaygunClient.user s' = RaygunClient.user s.
Proof.
  intros h message details rt s s'. subst s s'.
  unfold ClientOps.recordBreadcrumb. rewrite client_mirror. cbn.
  split; [|repeat split].
  eexists. split; [reflexivity|]. split; [reflexivity|].
  destruct details as [d|]; cbn; [|reflexivity].
  repeat split.
Qed.

Example recordBreadcrumb_timestamp :
  let details :=
    ClientOps.mkBreadcrumbOption None (Some "Simulation"%string)
                                 (Some "debug"%string) None (Some 42) in
  map (fun b => (RaygunClient.category b, RaygunClient.level b,
                 RaygunClient.message b, RaygunClient.b_timestamp b))
      (RaygunClient.breadcrumbs
         (RaygunClient.curSession
            (ClientOps.client
               (snd (ClientOps.recordBreadcrumb Sample.client_host
                       "Breadcrumb Message" (Some details) Sample2.runtime)))))
  = [(""%string, "info"%string, "opened settings"%string, 1000);
     ("Simulation"%string, "debug"%string, "Breadcrumb Message"%string, 1000)].
Proof. reflexivity. Qed.

(** X20.  The session operations tell the native side what they stored,
    after storing it: [setUser] passes the user now in the session,
    [addCustomData] and [updateCustomData] the custom data now in the
    session, [recordBreadcrumb] the breadcrumb just appended.  The call
    is made exactly when native crash reporting is enabled; before
    [init] the operation throws instead, with the session already
    changed. *)
Theorem session_operations_mirror :
  forall (h : RaygunClient.Host) (rt : ClientOps.Runtime),
    (forall arg,
        let r := ClientOps.setUser h arg rt in
        mirrors rt r
          (ClientOps.Native_setUser (RaygunClient.user (session_of (snd r))))) /\
    (forall d,
        let r := ClientOps.addCustomData d rt in
        mirrors rt r
          (ClientOps.Native_setCustomData
             (RaygunClient.customData (session_of (snd r))))) /\
    (forall updater,
        let r := ClientOps.updateCustomData updater rt in
        mirrors rt r
          (ClientOps.Native_setCustomData
             (RaygunClient.customData (session_of (snd r))))) /\
    (forall message details,
        let r := ClientOps.recordBreadcrumb h message details rt in
        exists b,
          RaygunClient.breadcrumbs (session_of (snd r))
          = RaygunClient.breadcrumbs (session_of rt) ++ [b] /\
          mirrors rt r (ClientOps.Native_recordBreadcrumb b)).
Proof.
  intros h rt. unfold mirrors, session_of.
  split; [|split; [|split]].
  - intros arg. unfold ClientOps.setUser.
    destruct arg as [id|o]; [destruct (String.eqb id "")|];
      rewrite mirror_outcome; cbn;
      destruct (RaygunClient.GlobalOptions (ClientOps.client rt)) as [opts|];
      cbn; try (split; reflexivity);
      destruct (RaygunClient.enableNativeCrashReporting opts); cbn;
      rewrite ?app_nil_r; split; reflexivity.
  - intros d. unfold ClientOps.addCustomData. rewrite mirror_outcome. cbn.
    destruct (RaygunClient.GlobalOptions (ClientOps.client rt)) as [opts|];
      cbn; [|split; reflexivity].
    destruct (RaygunClient.enableNativeCrashReporting opts); cbn;
      rewrite ?app_nil_r; split; reflexivity.
  - intros updater. unfold ClientOps.updateCustomData. rewrite mirror_outcome.
    cbn.
    destruct (RaygunClient.GlobalOptions (ClientOps.client rt)) as [opts|];
      cbn; [|split; reflexivity].
    destruct (RaygunClient.enableNativeCrashReporting opts); cbn;
      rewrite ?app_nil_r; split; reflexivity.
  - intros message details. unfold ClientOps.recordBreadcrumb.
    rewrite mirror_outcome. cbn.
    eexists. split.
    + destruct (RaygunClient.GlobalOptions (ClientOps.client rt)) as [opts|];
        cbn; [|reflexivity].
      destruct (RaygunClient.enableNativeCrashReporting opts); reflexivity.
    + destruct (RaygunClient.GlobalOptions (ClientOps.client rt)) as [opts|];
        cbn; [|split; reflexivity].
      destruct (RaygunClient.enableNativeCrashReporting opts); cbn;
        rewrite ?app_nil_r; split; reflexivity.
Qed.

(** ** The error pipeline *)

Section PipelineFacts.

Import RaygunClient ClientOps.

Variable h : Host.
Variable pf : Platform.

Lemma generate_some error frames session st o :
  GlobalOptions st = Some o ->
  exists p,
    generateCrashReportPayload h error frames session st
    = (Some p, tick (tick st)).
Proof.
  intros Ho. unfold generateCrashReportPayload. cbn. rewrite Ho.
  eexists. reflexivity.
Qed.

(** The payload depends on the state only through the options and the
    clock. *)
Lemma generate_state error frames session st1 st2 :
  GlobalOptions st1 = GlobalOptions st2 ->
  clockReads st1 = clockReads st2 ->
  fst (generateCrashReportPayload h error frames session st1)
  = fst (generateCrashReportPayload h error frames session st2).
Proof.
  intros Ho Hc. unfold generateCrashReportPayload. cbn. rewrite Ho, Hc.
  destruct (GlobalOptions st2); reflexivity.
Qed.

Lemma generate_fields error frames session st p :
  fst (generateCrashReportPayload h error frames session st) = Some p ->
  Tags (Details_ p) = tags session /\
  UserCustomData (Details_ p) = customData session /\
  StackTrace (Error_ (Details_ p))
  = match frames with
    | FrameArray fs => map convertToCrashReportingStackFrame fs
    | SingleFrame f => [convertToCrashReportingStackFrame f]
    end.
Proof.
  unfold generateCrashReportPayload. cbn.
  destruct (GlobalOptions st); cbn; [|discriminate].
  intros [= <-]. repeat split.
Qed.

(** A recognised error in an initialised client: the session is marked
    if the error is fatal, one payload is built from the marked session,
    and what the hook lets through is sent. *)
Lemma process_recognised e isFatal rt o :
  unrecognized (Some e) = false ->
  GlobalOptions (client rt) = Some o ->
  exists p,
    fst (generateCrashReportPayload h (Some e) (stack_of pf e)
           (marked isFatal (session_of rt)) (client rt)) = Some p /\
    exists rt',
      processUnhandledError h pf (Some e) isFatal rt = (Normal, rt') /\
      session_of rt' = marked isFatal (session_of rt) /\
      GlobalOptions (client rt') = Some o /\
      onBeforeSend rt' = onBeforeSend rt /\
      effects rt' = effects rt ++ after_hook (onBeforeSend rt) o p.
Proof.
  intros Hrec Ho.
  set (rt1 := if isFatal
              then with_client
                     (with_session (fun s => set_tags (Set_add "Fatal" (tags s)) s))
                     rt
              else rt).
  assert (Ho1 : GlobalOptions (client rt1) = Some o)
    by (subst rt1; destruct isFatal; exact Ho).
  assert (Hs1 : curSession (client rt1) = marked isFatal (session_of rt))
    by (subst rt1; destruct isFatal; reflexivity).
  assert (Hc1 : clockReads (client rt1) = clockReads (client rt))
    by (subst rt1; destruct isFatal; reflexivity).
  assert (He1 : effects rt1 = effects rt /\ onBeforeSend rt1 = onBeforeSend rt)
    by (subst rt1; destruct isFatal; split; reflexivity).
  destruct He1 as [He1 Hh1].
  destruct (generate_some (Some e) (stack_of pf e) (curSession (client rt1))
              (client rt1) o Ho1) as [p Hp].
  exists p. split.
  { rewrite <- Hs1.
    rewrite (generate_state _ _ _ (client rt) (client rt1))
      by (rewrite ?Ho, ?Ho1, ?Hc1; reflexivity).
    rewrite Hp. reflexivity. }
  unfold processUnhandledError. rewrite Hrec. fold rt1. rewrite Hp.
  cbn [with_client client onBeforeSend effects GlobalOptions tick].
  rewrite Ho1, Hh1. unfold after_hook, Obs2.send_effects.
  destruct (onBeforeSend rt) as [hook|].
  - destruct (hook p) as [p'|].
    + destruct (enableNativeCrashReporting o); eexists; (split; [reflexivity|]);
        cbn; rewrite He1, <- ?app_assoc; repeat split; try assumption;
        unfold session_of; cbn; assumption.
    + eexists; (split; [reflexivity|]); cbn; rewrite He1, ?app_nil_r;
        repeat split; try assumption; unfold session_of; cbn; assumption.
  - destruct (enableNativeCrashReporting o); eexists; (split; [reflexivity|]);
      cbn; rewrite He1, <- ?app_assoc; repeat split; try assumption;
      unfold session_of; cbn; assumption.
Qed.

End PipelineFacts.

(** X21.  An error that has a stack, in an initialised client, is
    reported exactly once: [processUnhandledError] completes normally,
    builds one payload from the session (marked with the tag "Fatal"
    first if the error is fatal) and hands it to the native bridge if
    native crash reporting is enabled and to the transport otherwise.
    An [onBeforeSend] hook replaces the payload by what it returns, and
    nothing at all is sent when it returns a falsy value. *)
Theorem error_is_reported_once :
  forall (h : RaygunClient.Host) (pf : ClientOps.Platform) e isFatal
         (rt : ClientOps.Runtime) o,
    ClientOps.unrecognized (Some e) = false ->
    RaygunClient.GlobalOptions (ClientOps.client rt) = Some o ->
    let r := ClientOps.processUnhandledError h pf (Some e) isFatal rt in
    fst r = Normal /\
    session_of (snd r) = marked isFatal (session_of rt) /\
    exists p,
      fst (RaygunClient.generateCrashReportPayload h (Some e)
             (ClientOps.stack_of pf e) (marked isFatal (session_of rt))
             (ClientOps.client rt)) = Some p /\
      ClientOps.effects (snd r)
      = ClientOps.effects rt ++ after_hook (ClientOps.onBeforeSend rt) o p.
Proof.
  intros h pf e isFatal rt o Hrec Ho r.
  destruct (process_recognised h pf e isFatal rt o Hrec Ho)
    as (p & Hp & rt' & Hr & Hs & _ & _ & He).
  subst r. rewrite Hr. cbn [fst snd].
  split; [reflexivity|]. split; [exact Hs|].
  exists p. split; assumption.
Qed.

Lemma error_is_reported_once_witness :
  let r :=
    ClientOps.processUnhandledError Sample.client_host Sample2.platform
      (Some Sample2.boom) true Sample2.runtime in
  fst r = Normal /\
  session_of (snd r) = marked true (session_of Sample2.runtime) /\
  exists p,
    fst (RaygunClient.generateCrashReportPayload Sample.client_host
           (Some Sample2.boom)
           (ClientOps.stack_of Sample2.platform Sample2.boom)
           (marked true (session_of Sample2.runtime))
           (ClientOps.client Sample2.runtime)) = Some p /\
    ClientOps.effects (snd r)
    = ClientOps.effects Sample2.runtime
      ++ after_hook (ClientOps.onBeforeSend Sample2.runtime) Sample.options p.
Proof.
  apply (error_is_reported_once Sample.client_host Sample2.platform
           Sample2.boom true Sample2.runtime Sample.options);
    reflexivity.
Defined.

(** X22.  An error that is null or undefined, or whose stack is missing
    or empty, is not reported: [processUnhandledError] only logs the
    warning.  The session is untouched, also for a fatal error, and no
    payload is built. *)
Theorem error_without_stack_is_dropped :
  forall (h : RaygunClient.Host) (pf : ClientOps.Platform) name message isFatal
         (rt : ClientOps.Runtime),
    let dropped := (Normal, ClientOps.emit ClientOps.Warn_UnrecognizedError rt) in
    ClientOps.processUnhandledError h pf None isFatal rt = dropped /\
    ClientOps.processUnhandledError h pf
      (Some (RaygunClient.mkError name message None)) isFatal rt = dropped /\
    ClientOps.processUnhandledError h pf
      (Some (RaygunClient.mkError name message (Some ""%string))) isFatal rt
    = dropped /\
    ClientOps.client (snd dropped) = ClientOps.client rt /\
    ClientOps.effects (snd dropped)
    = ClientOps.effects rt ++ [ClientOps.Warn_UnrecognizedError].
Proof.
  intros. repeat split.
Qed.

(** X23.  The tag "Fatal" sticks: after a fatal error has been
    processed the session carries the tag, and the report of any later
    error, fatal or not, carries it too. *)
Theorem fatal_tag_sticks :
  forall (h : RaygunClient.Host) (pf : ClientOps.Platform) e1 e2 isFatal
         (rt : ClientOps.Runtime) o,
    ClientOps.unrecognized (Some e1) = false ->
    ClientOps.unrecognized (Some e2) = false ->
    RaygunClient.GlobalOptions (ClientOps.client rt) = Some o ->
    ClientOps.onBeforeSend rt = None ->
    let rt1 := snd (ClientOps.processUnhandledError h pf (Some e1) true rt) in
    let rt2 := snd (ClientOps.processUnhandledError h pf (Some e2) isFatal rt1) in
    "Fatal"%string ∈ RaygunClient.tags (session_of rt1) /\
    exists p,
      ClientOps.effects rt2 = ClientOps.effects rt1 ++ send_effects o p /\
      "Fatal"%string ∈ RaygunClient.Tags (RaygunClient.Details_ p).
Proof.
  intros h pf e1 e2 isFatal rt o Hrec1 Hrec2 Ho Hhook rt1 rt2.
  destruct (process_recognised h pf e1 true rt o Hrec1 Ho)
    as (p1 & _ & rt1' & Hr1 & Hs1 & Ho1 & Hh1 & _).
  assert (Hrt1 : rt1 = rt1') by (subst rt1; rewrite Hr1; reflexivity).
  assert (Hfatal : "Fatal"%string ∈ RaygunClient.tags (session_of rt1)).
  { rewrite Hrt1, Hs1. cbn. apply Set_add_elem. right. reflexivity. }
  split; [exact Hfatal|].
  rewrite <- Hrt1 in Ho1, Hh1.
  destruct (process_recognised h pf e2 isFatal rt1 o Hrec2 Ho1)
    as (p2 & Hp2 & rt2' & Hr2 & _ & _ & _ & He2).
  exists p2. split.
  - subst rt2. rewrite Hr2. cbn [snd]. rewrite He2, Hh1, Hhook. reflexivity.
  - destruct (generate_fields h _ _ _ _ _ Hp2) as (Htags & _).
    rewrite Htags. destruct isFatal; cbn; [|exact Hfatal].
    apply Set_add_elem. left. exact Hfatal.
Qed.

Lemma fatal_tag_sticks_witness :
  let rt1 :=
    snd (ClientOps.processUnhandledError Sample.client_host Sample2.platform
           (Some Sample2.boom) true Sample2.runtime) in
  let rt2 :=
    snd (ClientOps.processUnhandledError Sample.client_host Sample2.platform
           (Some Sample2.boom) false rt1) in
  "Fatal"%string ∈ RaygunClient.tags (session_of rt1) /\
  exists p,
    ClientOps.effects rt2 = ClientOps.effects rt1 ++ send_effects Sample.options p /\
    "Fatal"%string ∈ RaygunClient.Tags (RaygunClient.Details_ p).
Proof.
  apply (fatal_tag_sticks Sample.client_host Sample2.platform Sample2.boom
           Sample2.boom false Sample2.runtime Sample.options);
    reflexivity.
Defined.

(** X24.  In a production build ([__DEV__] false) the frames parsed
    from the error never reach the report: the payload builder is given
    the object [{ stack: ... }], so every report has exactly one
    stack-trace entry, with no file name, no line and no column, the
    method name "[anonymous]" and the class name
    "line undefined, column undefined". *)
Theorem production_stack_trace_is_blank :
  forall (h : RaygunClient.Host) (pf : ClientOps.Platform) e isFatal
         (rt : ClientOps.Runtime) o,
    ClientOps.__DEV__ pf = false ->
    ClientOps.unrecognized (Some e) = false ->
    RaygunClient.GlobalOptions (ClientOps.client rt) = Some o ->
    ClientOps.onBeforeSend rt = None ->
    let r := ClientOps.processUnhandledError h pf (Some e) isFatal rt in
    exists p,
      ClientOps.effects (snd r) = ClientOps.effects rt ++ send_effects o p /\
      RaygunClient.StackTrace (RaygunClient.Error_ (RaygunClient.Details_ p))
      = [blank_entry].
Proof.
  intros h pf e isFatal rt o Hdev Hrec Ho Hhook r.
  destruct (process_recognised h pf e isFatal rt o Hrec Ho)
    as (p & Hp & rt' & Hr & _ & _ & _ & He).
  exists p. split.
  - subst r. rewrite Hr. cbn [snd]. rewrite He, Hhook. reflexivity.
  - destruct (generate_fields h _ _ _ _ _ Hp) as (_ & _ & Hst).
    rewrite Hst. unfold ClientOps.stack_of. rewrite Hdev. reflexivity.
Qed.

Lemma production_stack_trace_is_blank_witness :
  let r :=
    ClientOps.processUnhandledError Sample.client_host Sample2.platform
      (Some Sample2.boom) false Sample2.runtime in
  exists p,
    ClientOps.effects (snd r)
    = ClientOps.effects Sample2.runtime ++ send_effects Sample.options p /\
    RaygunClient.StackTrace (RaygunClient.Error_ (RaygunClient.Details_ p))
    = [blank_entry].
Proof.
  apply (production_stack_trace_is_blank Sample.client_host Sample2.platform
           Sample2.boom false Sample2.runtime Sample.options);
    reflexivity.
Defined.

Example development_stack_trace :
  let r :=
    ClientOps.processUnhandledError Sample.client_host Sample2.dev_platform
      (Some Sample2.boom) false Sample2.runtime in
  map (fun p => map RaygunClient.ClassName
                    (RaygunClient.StackTrace
                       (RaygunClient.Error_ (RaygunClient.Details_ p))))
      (omap reported (ClientOps.effects (snd r)))
  = [["line 5, column 2"%string]].
Proof. reflexivity. Qed.

Section CustomErrorFacts.

Import RaygunClient ClientOps.

Variable h : Host.
Variable pf : Platform.

Lemma addTag_initialised ts rt o :
  GlobalOptions (client rt) = Some o ->
  exists rt1,
    addTag ts rt = (Normal, rt1) /\
    GlobalOptions (client rt1) = Some o /\
    onBeforeSend rt1 = onBeforeSend rt /\
    effects rt1 = effects rt /\
    session_of rt1
    = mkSession
        (fold_left (fun acc t => Set_add t acc) ts (tags (session_of rt)))
        (customData (session_of rt)) (breadcrumbs (session_of rt))
        (user (session_of rt)).
Proof.
  intros Ho. unfold addTag, RaygunClient.addTag, session_of. cbn. rewrite Ho.
  destruct (enableNativeCrashReporting o); eexists; repeat split; exact Ho.
Qed.

Lemma addCustomData_initialised d rt o :
  GlobalOptions (client rt) = Some o ->
  exists rt1,
    addCustomData d rt = (Normal, rt1) /\
    GlobalOptions (client rt1) = Some o /\
    onBeforeSend rt1 = onBeforeSend rt /\
    (exists mirrored, effects rt1 = effects rt ++ mirrored) /\
    session_of rt1
    = mkSession (tags (session_of rt)) (d ∪ customData (session_of rt))
                (breadcrumbs (session_of rt)) (user (session_of rt)).
Proof.
  intros Ho. unfold addCustomData, session_of. rewrite mirror_outcome. cbn.
  rewrite Ho.
  destruct (enableNativeCrashReporting o); eexists;
    (split; [reflexivity|]); cbn; repeat split; try exact Ho.
  - eexists. reflexivity.
  - exists []. rewrite app_nil_r. reflexivity.
Qed.

(** Before it enters the pipeline, [sendCustomError] has merged the
    given custom data into the session and added the given tags. *)
Lemma sendCustomError_prepares error params rt o :
  GlobalOptions (client rt) = Some o ->
  exists rt1,
    sendCustomError h pf error params rt
    = processUnhandledError h pf error false rt1 /\
    GlobalOptions (client rt1) = Some o /\
    onBeforeSend rt1 = onBeforeSend rt /\
    (exists mirrored, effects rt1 = effects rt ++ mirrored) /\
    session_of rt1
    = mkSession
        (fold_left (fun acc t => Set_add t acc) (given_tags params)
                   (tags (session_of rt)))
        (given_data params ∪ customData (session_of rt))
        (breadcrumbs (session_of rt)) (user (session_of rt)).
Proof.
  intros Ho.
  assert (Hsame : forall s : Session,
             mkSession (tags s) (customData s) (breadcrumbs s) (user s) = s)
    by (intros []; reflexivity).
  assert (Hdata : forall d_opt,
             exists rt1,
               match d_opt with
               | Some d => addCustomData d rt
               | None => (Normal, rt)
               end = (Normal, rt1) /\
               GlobalOptions (client rt1) = Some o /\
               onBeforeSend rt1 = onBeforeSend rt /\
               (exists mirrored, effects rt1 = effects rt ++ mirrored) /\
               session_of rt1
               = mkSession (tags (session_of rt))
                   (match d_opt with Some d => d | None => ∅ end
                    ∪ customData (session_of rt))
                   (breadcrumbs (session_of rt)) (user (session_of rt))).
  { intros [d|]; [apply addCustomData_initialised, Ho|].
    exists rt. rewrite (left_id_L ∅ (∪)), Hsame.
    repeat split; try exact Ho. exists []. rewrite app_nil_r. reflexivity. }
  assert (Htags : forall t_opt rt0,
             GlobalOptions (client rt0) = Some o ->
             exists rt1,
               match t_opt with
               | Some (t :: ts) => addTag (t :: ts) rt0
               | _ => (Normal, rt0)
               end = (Normal, rt1) /\
               GlobalOptions (client rt1) = Some o /\
               onBeforeSend rt1 = onBeforeSend rt0 /\
               effects rt1 = effects rt0 /\
               session_of rt1
               = mkSession
                   (fold_left (fun acc t => Set_add t acc)
                              (match t_opt with Some ts => ts | None => [] end)
                              (tags (session_of rt0)))
                   (customData (session_of rt0)) (breadcrumbs (session_of rt0))
                   (user (session_of rt0))).
  { intros [[|t ts]|] rt0 H0; [| apply addTag_initialised, H0 |];
      exists rt0; cbn; rewrite Hsame; repeat split; exact H0. }
  set (d_opt := match params with
                | DataOnly d => Some d
                | DataAndTags d _ => d
                | _ => None
                end).
  set (t_opt := match params with
                | TagsOnly t => Some t
                | DataAndTags _ t => t
                | _ => None
                end).
  assert (Hgd : given_data params = match d_opt with Some d => d | None => ∅ end)
    by (subst d_opt; destruct params as [| | |[d|] t]; reflexivity).
  assert (Hgt : given_tags params = match t_opt with Some ts => ts | None => [] end)
    by (subst t_opt; destruct params as [| | |d [t|]]; reflexivity).
  assert (Hsplit : sendCustomError h pf error params rt
                   = let '(c, rt) :=
                       match d_opt with
                       | Some d => addCustomData d rt
                       | None => (Normal, rt)
                       end in
                     match c with
                     | Normal =>
                         let '(c, rt) :=
                           match t_opt with
                           | Some (t :: ts) => addTag (t :: ts) rt
                           | _ => (Normal, rt)
                           end in
                         match c with
                         | Normal => processUnhandledError h pf error false rt
                         | _ => (c, rt)
                         end
                     | _ => (c, rt)
                     end)
    by (subst d_opt t_opt; destruct params; reflexivity).
  rewrite Hsplit, Hgd, Hgt. clearbody d_opt t_opt.
  destruct (Hdata d_opt) as (rt1 & Hr1 & Ho1 & Hh1 & [m1 Hm1] & Hs1).
  rewrite Hr1.
  destruct (Htags t_opt rt1 Ho1) as (rt2 & Hr2 & Ho2 & Hh2 & He2 & Hs2).
  rewrite Hr2.
  exists rt2. split; [reflexivity|]. split; [exact Ho2|].
  split; [congruence|]. split; [exists m1; congruence|].
  rewrite Hs2, Hs1. reflexivity.
Qed.

End CustomErrorFacts.

(** X25.  What is handed to [sendCustomError] stays on the session:
    with an error that has a stack, in an initialised client without
    hook, the call completes normally, merges the given custom data into
    the session's custom data and adds the given tags to its tags, and
    then reports once; the report carries exactly the session's tags and
    custom data as they are after the call. *)
Theorem sendCustomError_keeps_what_it_adds :
  forall (h : RaygunClient.Host) (pf : ClientOps.Platform) e params
         (rt : ClientOps.Runtime) o,
    ClientOps.unrecognized (Some e) = false ->
    RaygunClient.GlobalOptions (ClientOps.client rt) = Some o ->
    ClientOps.onBeforeSend rt = None ->
    let r := ClientOps.sendCustomError h pf (Some e) params rt in
    let s := session_of rt in
    let s' := session_of (snd r) in
    fst r = Normal /\
    RaygunClient.tags s'
    = fold_left (fun acc t => RaygunClient.Set_add t acc) (given_tags params)
                (RaygunClient.tags s) /\
    RaygunClient.customData s' = given_data params ∪ RaygunClient.customData s /\
    exists p before,
      ClientOps.effects (snd r) = before ++ send_effects o p /\
      RaygunClient.Tags (RaygunClient.Details_ p) = RaygunClient.tags s' /\
      RaygunClient.UserCustomData (RaygunClient.Details_ p)
      = RaygunClient.customData s'.
Proof.
  intros h pf e params rt o Hrec Ho Hhook r s s'.
  destruct (sendCustomError_prepares h pf (Some e) params rt o Ho)
    as (rt1 & Hr & Ho1 & Hh1 & [mirrored Hm] & Hs1).
  destruct (process_recognised h pf e false rt1 o Hrec Ho1)
    as (p & Hp & rt' & Hr' & Hs' & _ & _ & He).
  assert (Hsnd : snd r = rt') by (subst r; rewrite Hr, Hr'; reflexivity).
  assert (Hfst : fst r = Normal) by (subst r; rewrite Hr, Hr'; reflexivity).
  cbn [marked] in Hs', Hp.
  destruct (generate_fields h _ _ _ _ _ Hp) as (Htags & Hdata & _).
  subst s s'. rewrite Hsnd, Hs', Hs1. cbn.
  split; [exact Hfst|]. split; [reflexivity|]. split; [reflexivity|].
  exists p, (ClientOps.effects rt1).
  rewrite He, Hh1, Hhook. split; [reflexivity|].
  rewrite Htags, Hdata, Hs1. split; reflexivity.
Qed.

Lemma sendCustomError_keeps_what_it_adds_witness :
  let params :=
    ClientOps.DataAndTags (Some {["cart"%string := RaygunClient.JNumber (of_Z 3)]})
                          (Some ["checkout"; "x"]%string) in
  let r :=
    ClientOps.sendCustomError Sample.client_host Sample2.platform
      (Some Sample2.boom) params Sample2.runtime in
  let s := session_of Sample2.runtime in
  let s' := session_of (snd r) in
  fst r = Normal /\
  RaygunClient.tags s'
  = fold_left (fun acc t => RaygunClient.Set_add t acc) (given_tags params)
              (RaygunClient.tags s) /\
  RaygunClient.customData s' = given_data params ∪ RaygunClient.customData s /\
  exists p before,
    ClientOps.effects (snd r) = before ++ send_effects Sample.options p /\
    RaygunClient.Tags (RaygunClient.Details_ p) = RaygunClient.tags s' /\
    RaygunClient.UserCustomData (RaygunClient.Details_ p)
    = RaygunClient.customData s'.
Proof.
  apply (sendCustomError_keeps_what_it_adds Sample.client_host Sample2.platform
           Sample2.boom
           (ClientOps.DataAndTags
              (Some {["cart"%string := RaygunClient.JNumber (of_Z 3)]})
              (Some ["checkout"; "x"]%string))
           Sample2.runtime Sample.options);
    reflexivity.
Defined.

Example sendCustomError_tags :
  RaygunClient.tags
    (session_of
       (snd (ClientOps.sendCustomError Sample.client_host Sample2.platform
               (Some Sample2.boom) (ClientOps.TagsOnly ["checkout"; "x"]%string)
               Sample2.runtime)))
  = ["React Native"; "x"; "checkout"]%string.
Proof. reflexivity. Qed.
